(** * tonic/hydra/train.py: resolution and composition of a training session

    A shallow embedding of [main] of [tonic/hydra/train.py], in three parts
    that follow its text: the checkpoint resolver (lines 50-91), the
    configuration reconciler (lines 93-103) and the session pipeline
    (lines 105-154); then the properties of the specification about them.

    Modelling.
    - Python values are the inductive [value] (numbers other than integers
      are left out); an exception is the outcome [Raise] of the monad [M].
    - Every call that leaves [main] is an [event] of the trace of the run:
      the logger, the filesystem, [exec], Hydra and the tonic collaborators.
      What such a call does inside is not modelled; whether it raises is
      decided by the [world].
    - [exec] of a snippet is one opaque step: it cannot rebind the local
      variables of [main], and what it does to the objects is its own
      matter.
    - The objects built in a run are named by the order of their creation,
      so that the environment, the test environment, the agent and the
      trainer of a run are the objects 0, 1, 2 and 3. *)

From Stdlib Require Import ZArith List String Ascii Bool Lia DecimalString.
From Stdlib Require DecimalPos Permutation.
Import ListNotations.

Local Open Scope string_scope.
Local Open Scope Z_scope.

(** ** Python values and builtins *)

Module Py.

(** The values [OmegaConf.to_container] and [yaml.load] produce. *)
#[warnings="-register-all"]
Inductive value : Type :=
| VNone
| VBool (b : bool)
| VInt (z : Z)
| VStr (s : string)
| VList (l : list value)
| VDict (d : list (string * value)).

(** Truth value testing: [None], [False], [0], [''], [[]] and [{}] are false. *)
Definition truthy (v : value) : bool :=
  match v with
  | VNone => false
  | VBool b => b
  | VInt z => negb (z =? 0)
  | VStr s => negb (s =? "")%string
  | VList l => match l with [] => false | _ :: _ => true end
  | VDict d => match d with [] => false | _ :: _ => true end
  end.

(** [v is not None] *)
Definition is_not_none (v : value) : bool :=
  match v with VNone => false | _ => true end.

(** [v == 'lit'] for a string literal: only a [str] equals a [str]. *)
Definition eq_str (v : value) (lit : string) : bool :=
  match v with VStr s => (s =? lit)%string | _ => false end.

(** Truthiness of an [Optional[str]] such as [checkpoint_output_dir]. *)
Definition truthy_opt (o : option string) : bool :=
  match o with Some s => negb (s =? "")%string | None => false end.

Definition of_opt (o : option string) : value :=
  match o with Some s => VStr s | None => VNone end.

(** Exceptions that [main] can let escape. *)
Inductive exn : Type :=
| TypeError
| ValueError
| AttributeError
| FileNotFoundError
| YAMLError
| CollaboratorError (who : string).

Inductive result (A : Type) : Type :=
| Ok (a : A)
| Raise (e : exn).
Arguments Ok {A} a.
Arguments Raise {A} e.

(** [s[:n]] *)
Fixpoint slice_to (n : nat) (s : string) : string :=
  match n, s with
  | S n', String c s' => String c (slice_to n' s')
  | _, _ => EmptyString
  end.

(** [s[n:]] *)
Fixpoint slice_from (n : nat) (s : string) : string :=
  match n, s with
  | S n', String _ s' => slice_from n' s'
  | _, _ => s
  end.

(** [s.split('.')[0]]: the text before the first dot. *)
Fixpoint before_dot (s : string) : string :=
  match s with
  | EmptyString => EmptyString
  | String c s' => if (c =? ".")%char then EmptyString else String c (before_dot s')
  end.

(** [str(z)] for an [int]. *)
Definition str_int (z : Z) : string := NilZero.string_of_int (Z.to_int z).

(** [str(p)] for an optional path: [None] prints as ['None']. *)
Definition str_opt (p : option string) : string :=
  match p with Some s => s | None => "None" end.

(** [int(s)] for a [str], base 10, on ASCII text: surrounding ASCII
    whitespace is stripped, one sign is allowed, and single underscores may
    separate digits.  (Python also accepts Unicode decimal digits and
    Unicode whitespace, and it limits the number of digits of a literal;
    none of these is modelled, so that [int_of_str] is exact on ASCII text
    and says nothing of other text.) *)
Definition is_space (c : ascii) : bool :=
  let n := N_of_ascii c in
  ((n =? 32) || (n =? 9) || (n =? 10) || (n =? 11) || (n =? 12) || (n =? 13))%N.

Definition digit_val (c : ascii) : option Z :=
  let n := Z.of_N (N_of_ascii c) in
  if (48 <=? n) && (n <=? 57) then Some (n - 48) else None.

Fixpoint lstrip (s : string) : string :=
  match s with
  | String c s' => if is_space c then lstrip s' else s
  | EmptyString => EmptyString
  end.

Fixpoint all_space (s : string) : bool :=
  match s with
  | String c s' => is_space c && all_space s'
  | EmptyString => true
  end.

(** Digits with single underscores between them, then optional trailing
    whitespace.  [prev] tells whether the previous character was a digit. *)
Fixpoint parse_digits (acc : Z) (prev : bool) (s : string) : option Z :=
  match s with
  | EmptyString => if prev then Some acc else None
  | String c s' =>
      match digit_val c with
      | Some d => parse_digits (acc * 10 + d) true s'
      | None =>
          if (c =? "_")%char then
            if prev then parse_digits acc false s' else None
          else if prev && all_space s then Some acc else None
      end
  end.

Definition int_of_str (s : string) : option Z :=
  match lstrip s with
  | String "-" s' => option_map Z.opp (parse_digits 0 false s')
  | String "+" s' => parse_digits 0 false s'
  | s' => parse_digits 0 false s'
  end.

(** [int(v)] *)
Definition int (v : value) : result Z :=
  match v with
  | VInt z => Ok z
  | VBool b => Ok (if b then 1 else 0)
  | VStr s => match int_of_str s with Some z => Ok z | None => Raise ValueError end
  | _ => Raise TypeError
  end.

(** [max(l)] and [min(l)] of a non-empty list; [None] stands for the
    [ValueError] of an empty one, which [main] rules out by testing the list. *)
Definition max (l : list Z) : option Z :=
  match l with
  | [] => None
  | x :: l' => Some (fold_left Z.max l' x)
  end.

Definition min (l : list Z) : option Z :=
  match l with
  | [] => None
  | x :: l' => Some (fold_left Z.min l' x)
  end.

(** [z in l] *)
Definition mem (z : Z) (l : list Z) : bool := existsb (Z.eqb z) l.

(** [d[k]] / [getattr] on the mapping behind an [argparse.Namespace]. *)
Fixpoint lookup (k : string) (d : list (string * value)) : option value :=
  match d with
  | [] => None
  | (k', v) :: d' => if (k' =? k)%string then Some v else lookup k d'
  end.

(** [del d[k]] *)
Fixpoint del (k : string) (d : list (string * value)) : list (string * value) :=
  match d with
  | [] => []
  | (k', v) :: d' => if (k' =? k)%string then del k d' else (k', v) :: del k d'
  end.

(** [s.startswith('/')] and [s.endswith('/')] *)
Definition starts_with_sep (s : string) : bool :=
  match s with String c _ => (c =? "/")%char | EmptyString => false end.

Fixpoint ends_with_sep (s : string) : bool :=
  match s with
  | EmptyString => false
  | String c EmptyString => (c =? "/")%char
  | String _ s' => ends_with_sep s'
  end.

(** [os.path.join(a, b)] of [posixpath], for a [str] first argument. *)
Definition path_join (a b : string) : string :=
  if starts_with_sep b then b
  else if (a =? "")%string || ends_with_sep a then a ++ b
  else a ++ "/" ++ b.

(** [os.path.join(a, b)] where [a] may be [None]: [os.fspath(None)] raises. *)
Definition os_path_join (a : option string) (b : string) : result string :=
  match a with
  | Some a' => Ok (path_join a' b)
  | None => Raise TypeError
  end.

End Py.
Import Py.

(** ** The run: configuration, world, events *)

(** [TonicTrainConfig], as [cfg.tonic] delivers it (lines 13-26, 32-44). *)
Record TonicTrainConfig : Type := {
  header : value;
  agent : value;
  environment : value;
  test_environment : value;
  trainer : value;
  before_training : value;
  after_training : value;
  parallel : Z;
  sequential : Z;
  seed : Z;
  checkpoint : value;
  checkpoint_output_dir : option string
}.

(** Objects built during the run are named by the order of their creation. *)
Definition handle : Type := nat.

Inductive space : Type :=
| ObservationSpace (env : handle)
| ActionSpace (env : handle).

(** Every call that leaves [main]. *)
Inductive event : Type :=
| EvLog (msg : string)                        (* tonic.logger.log *)
| EvLogError (msg : string)                   (* tonic.logger.error *)
| EvIsDir (path : string)                     (* os.path.isdir *)
| EvListDir (path : option string)            (* os.listdir *)
| EvOpen (path : string)                      (* open(path, 'r') *)
| EvYamlLoad (path : string)                  (* yaml.load *)
| EvExec (code : string)                      (* exec *)
| EvDistribute (h : handle) (descriptor : value) (workers : option (Z * Z))
| EvInstantiate (h : handle) (descriptor : value)
| EvEnvInitialize (env : handle) (seed : Z)
| EvAgentInitialize (agent : handle) (obs act : space) (seed : Z)
| EvAgentLoad (agent : handle) (path : string)
| EvLoggerInitialize (output_dir script_path : string)
                     (config : list (string * value))
| EvTrainerInitialize (trainer agent env test_env : handle)
| EvTrainerRun (trainer : handle).

(** What [open] followed by [yaml.load] finds at a path. *)
Inductive config_file : Type :=
| NoFile
| Unparseable
| Parsed (v : value).

(** Everything outside [main] that decides a run: the directories of the
    filesystem with their entries, the entries of the working directory
    (what [os.listdir(None)] lists), the configuration files, which
    collaborator calls raise, and the two values Hydra and the interpreter
    supply. *)
Record world : Type := {
  fs_dirs : string -> option (list string);
  fs_cwd : list string;
  fs_config : string -> config_file;
  raises : event -> option exn;
  output_dir : string;
  script_file : string
}.

(** Modelled from the spec: the default worker counts of
    [tonic.environments.distribute], whose definition is not part of the
    sources at hand; "always with parallel = 1, sequential = 1 (never
    distributed)" for a call that passes neither. *)
Definition distribute_defaults : Z * Z := (1, 1).

(** The worker counts a [distribute] call runs with. *)
Definition workers_of (workers : option (Z * Z)) : Z * Z :=
  match workers with Some pq => pq | None => distribute_defaults end.

(** ** A monad for traces, object creation and exceptions *)

(** A computation starts from the number of objects created so far and
    returns the events it emitted, the new number and its outcome. *)
Definition M (A : Type) : Type := nat -> list event * (nat * result A).

Definition ret {A} (a : A) : M A := fun n => ([], (n, Ok a)).

Definition raise {A} (e : exn) : M A := fun n => ([], (n, Raise e)).

Definition bind {A B} (m : M A) (f : A -> M B) : M B :=
  fun n =>
    match m n with
    | (t1, (n1, Ok a)) =>
        match f a n1 with (t2, r) => ((t1 ++ t2)%list, r) end
    | (t1, (n1, Raise e)) => (t1, (n1, Raise e))
    end.

Notation "x <- m ;; k" := (bind m (fun x => k))
  (at level 61, m at next level, right associativity).
Notation "m ;; k" := (bind m (fun _ => k))
  (at level 61, right associativity).

Definition lift {A} (r : result A) : M A := fun n => ([], (n, r)).

(** An observable call that cannot fail. *)
Definition emit (e : event) : M unit := fun n => ([e], (n, Ok tt)).

(** A collaborator call: recorded, and raising when the world says so. *)
Definition call (w : world) (e : event) : M unit :=
  fun n =>
    ([e], (n, match raises w e with Some x => Raise x | None => Ok tt end)).

Definition fresh : M handle := fun n => ([], (S n, Ok n)).

Definition trace_of {A} (x : list event * (nat * result A)) : list event := fst x.
Definition outcome_of {A} (x : list event * (nat * result A)) : result A :=
  snd (snd x).

(** A run from the start of the process. *)
Definition run {A} (m : M A) : list event * result A :=
  (trace_of (m 0%nat), outcome_of (m 0%nat)).

(** ** [main] *)

Section Main.

Variable w : world.

(** [os.path.isdir(path)] *)
Definition isdir (path : string) : M bool :=
  emit (EvIsDir path);;
  ret (match fs_dirs w path with Some _ => true | None => false end).

(** [os.listdir(path)]; [os.listdir(None)] lists the working directory. *)
Definition listdir (path : option string) : M (list string) :=
  emit (EvListDir path);;
  match path with
  | None => ret (fs_cwd w)
  | Some p =>
      match fs_dirs w p with
      | Some files => ret files
      | None => raise FileNotFoundError
      end
  end.

(** Lines 66-70: the loop that collects the checkpoint ids. *)
Fixpoint scan (files : list string) (checkpoint_ids : list Z) : result (list Z) :=
  match files with
  | [] => Ok checkpoint_ids
  | file :: files' =>
      if (slice_to 5 file =? "step_")%string then
        let checkpoint_id := before_dot file in
        match int (VStr (slice_from 5 checkpoint_id)) with
        | Ok z => scan files' (checkpoint_ids ++ [z])%list
        | Raise e => Raise e
        end
      else scan files' checkpoint_ids
  end.

(** [os.path.join(checkpoint_path, f'step_{checkpoint_id}')] *)
Definition step_path (checkpoint_path : option string) (checkpoint_id : Z)
  : M (option string) :=
  p <- lift (os_path_join checkpoint_path ("step_" ++ str_int checkpoint_id));;
  ret (Some p).

(** Lines 72-91: the choice among the ids found. *)
Definition choose_checkpoint (checkpoint : value) (checkpoint_path : option string)
  (checkpoint_ids : list Z) : M (option string) :=
  match checkpoint_ids with
  | _ :: _ =>
      if eq_str checkpoint "last" then
        match Py.max checkpoint_ids with
        | Some checkpoint_id => step_path checkpoint_path checkpoint_id
        | None => raise ValueError
        end
      else if eq_str checkpoint "first" then
        match Py.min checkpoint_ids with
        | Some checkpoint_id => step_path checkpoint_path checkpoint_id
        | None => raise ValueError
        end
      else
        checkpoint_id <- lift (int checkpoint);;
        if mem checkpoint_id checkpoint_ids then
          step_path checkpoint_path checkpoint_id
        else
          emit (EvLogError ("Checkpoint " ++ str_int checkpoint_id
                            ++ " not found in " ++ str_opt checkpoint_path));;
          ret None
  | [] =>
      emit (EvLogError ("No checkpoint found in " ++ str_opt checkpoint_path));;
      ret None
  end.

(** Lines 60-91: the [else] branch that looks for a checkpoint.  After
    line 63 [checkpoint_path] is [None], and line 67 lists [None]. *)
Definition select_checkpoint (checkpoint : value) (checkpoint_output_dir : string)
  : M (option string) :=
  let checkpoint_path := path_join checkpoint_output_dir "checkpoints" in
  is_dir <- isdir checkpoint_path;;
  checkpoint_path <-
    (if negb is_dir then
       emit (EvLogError (checkpoint_path ++ " is not a directory"));;
       ret None
     else ret (Some checkpoint_path));;
  files <- listdir checkpoint_path;;
  checkpoint_ids <- lift (scan files []);;
  choose_checkpoint checkpoint checkpoint_path checkpoint_ids.

(** Lines 56-91: which weights to load, if any. *)
Definition resolve_weights (checkpoint agent : value) (checkpoint_output_dir : string)
  : M (option string) :=
  if eq_str checkpoint "none" || is_not_none agent then
    emit (EvLog "Not loading any weights");;
    ret None
  else select_checkpoint checkpoint checkpoint_output_dir.

(** Lines 93-97: the persisted configuration, as the mapping behind
    [argparse.Namespace] of line 97. *)
Definition load_config (checkpoint_output_dir : string) : M (list (string * value)) :=
  let arguments_path := path_join checkpoint_output_dir "config.yaml" in
  emit (EvOpen arguments_path);;
  match fs_config w arguments_path with
  | NoFile => raise FileNotFoundError
  | Unparseable => emit (EvYamlLoad arguments_path);; raise YAMLError
  | Parsed v =>
      emit (EvYamlLoad arguments_path);;
      match v with
      | VDict config => ret config
      | _ => raise TypeError
      end
  end.

(** [current or config.name]: the attribute is only read when [current] is
    false, and reading a missing attribute raises. *)
Definition or_attr (current : value) (config : list (string * value)) (name : string)
  : M value :=
  if truthy current then ret current
  else match lookup name config with
       | Some v => ret v
       | None => raise AttributeError
       end.

(** The container of line 32 and the locals of lines 33-44. *)
Definition to_container (cfg : TonicTrainConfig) : list (string * value) :=
  [ ("header", header cfg);
    ("agent", agent cfg);
    ("environment", environment cfg);
    ("test_environment", test_environment cfg);
    ("trainer", trainer cfg);
    ("before_training", before_training cfg);
    ("after_training", after_training cfg);
    ("parallel", VInt (parallel cfg));
    ("sequential", VInt (sequential cfg));
    ("seed", VInt (seed cfg));
    ("checkpoint", checkpoint cfg);
    ("checkpoint_output_dir", of_opt (checkpoint_output_dir cfg)) ].

(** Lines 46-48: [args = dict(locals()); del args['cfg']]. *)
Definition capture_args (cfg : TonicTrainConfig) : list (string * value) :=
  del "cfg" (("cfg", VDict (to_container cfg)) :: to_container cfg).

(** The locals of [main] at line 104: the variables that hold the
    specification after the merge, the resolved checkpoint, and [args]. *)
Record session_inputs : Type := {
  effective : TonicTrainConfig;
  checkpoint_path : option string;
  args : list (string * value)
}.

(** Lines 93-103: the persisted configuration is loaded and the five
    mergeable variables are rebound. *)
Definition reconcile (cfg : TonicTrainConfig) (dir : string)
  (checkpoint_path : option string) (args : list (string * value))
  : M session_inputs :=
  config <- load_config dir;;
  header' <- or_attr (header cfg) config "header";;
  agent' <- or_attr (agent cfg) config "agent";;
  environment' <- or_attr (environment cfg) config "environment";;
  test_environment' <- or_attr (test_environment cfg) config "test_environment";;
  trainer' <- or_attr (trainer cfg) config "trainer";;
  ret {| effective :=
           {| header := header';
              agent := agent';
              environment := environment';
              test_environment := test_environment';
              trainer := trainer';
              before_training := before_training cfg;
              after_training := after_training cfg;
              parallel := parallel cfg;
              sequential := sequential cfg;
              seed := seed cfg;
              checkpoint := checkpoint cfg;
              checkpoint_output_dir := checkpoint_output_dir cfg |};
         checkpoint_path := checkpoint_path;
         args := args |}.

(** Lines 33-103. *)
Definition prepare (cfg : TonicTrainConfig) : M session_inputs :=
  let args := capture_args cfg in
  if truthy_opt (checkpoint_output_dir cfg) then
    let dir := str_opt (checkpoint_output_dir cfg) in
    emit (EvLog ("Loading experiment from " ++ dir));;
    checkpoint_path <- resolve_weights (checkpoint cfg) (agent cfg) dir;;
    reconcile cfg dir checkpoint_path args
  else
    ret {| effective := cfg; checkpoint_path := None; args := args |}.

(** [exec(code)]: a [str] is run, anything else is rejected by [exec]. *)
Definition py_exec (code : value) : M unit :=
  match code with
  | VStr s => call w (EvExec s)
  | _ => raise TypeError
  end.

(** [tonic.environments.distribute(lambda: instantiate(descriptor), ...)] *)
Definition distribute (descriptor : value) (workers : option (Z * Z)) : M handle :=
  h <- fresh;;
  call w (EvDistribute h descriptor workers);;
  ret h.

(** [hydra.utils.instantiate(descriptor)] *)
Definition instantiate (descriptor : value) : M handle :=
  h <- fresh;;
  call w (EvInstantiate h descriptor);;
  ret h.

(** Lines 105-154.  The source rebinds [environment], [test_environment],
    [agent] and [trainer] to the objects built from them; here the objects
    are [env], [test_env], [agt] and [trn]. *)
Definition run_session (s : session_inputs) : M unit :=
  let c := effective s in
  (if truthy (header c) then py_exec (header c) else ret tt);;
  let environment_cfg := environment c in
  env <- distribute environment_cfg (Some (parallel c, sequential c));;
  call w (EvEnvInitialize env (seed c));;
  let test_environment_cfg :=
    if truthy (test_environment c) then test_environment c else environment_cfg in
  test_env <- distribute test_environment_cfg None;;
  call w (EvEnvInitialize test_env (seed c + 10000));;
  agt <- instantiate (agent c);;
  call w (EvAgentInitialize agt (ObservationSpace env) (ActionSpace env) (seed c));;
  (if truthy_opt (checkpoint_path s)
   then call w (EvAgentLoad agt (str_opt (checkpoint_path s)))
   else ret tt);;
  call w (EvLoggerInitialize (output_dir w) (script_file w) (args s));;
  trn <- instantiate (trainer c);;
  call w (EvTrainerInitialize trn agt env test_env);;
  (if truthy (before_training c) then py_exec (before_training c) else ret tt);;
  call w (EvTrainerRun trn);;
  (if truthy (after_training c) then py_exec (after_training c) else ret tt).

Definition main (cfg : TonicTrainConfig) : M unit :=
  s <- prepare cfg;;
  run_session s.

End Main.

(** ** Notions used to state the properties *)

(** [emits P m]: every event [m] emits satisfies [P], whatever the outcome. *)
Definition emits {A} (P : event -> Prop) (m : M A) : Prop :=
  forall n, Forall P (trace_of (m n)).

(** [allocates_nothing m]: [m] creates no object. *)
Definition allocates_nothing {A} (m : M A) : Prop :=
  forall n, fst (snd (m n)) = n.

Definition is_log (e : event) : bool :=
  match e with EvLog _ | EvLogError _ => true | _ => false end.

(** Looking into the checkpoint directory. *)
Definition is_scan (e : event) : bool :=
  match e with EvIsDir _ | EvListDir _ => true | _ => false end.

(** Any access to the filesystem. *)
Definition is_filesystem (e : event) : bool :=
  match e with
  | EvIsDir _ | EvListDir _ | EvOpen _ | EvYamlLoad _ => true
  | _ => false
  end.

Definition is_agent_load (e : event) : bool :=
  match e with EvAgentLoad _ _ => true | _ => false end.

Definition is_trainer_run (e : event) : bool :=
  match e with EvTrainerRun _ => true | _ => false end.

(** The steps of the session pipeline: everything but logging and files. *)
Definition is_step (e : event) : bool := negb (is_log e || is_filesystem e).

(** The step a snippet contributes: one [exec] when it is a non-empty [str].
    (A true value that is not a [str] makes [exec] raise before any step.) *)
Definition snippet_step (code : value) : list event :=
  if truthy code then
    match code with VStr s => [EvExec s] | _ => [] end
  else [].

Definition load_step (agt : handle) (checkpoint_path : option string) : list event :=
  if truthy_opt checkpoint_path
  then [EvAgentLoad agt (str_opt checkpoint_path)]
  else [].

(** The test environment's descriptor of line 116. *)
Definition test_descriptor (c : TonicTrainConfig) : value :=
  if truthy (test_environment c) then test_environment c else environment c.

(** The steps of a complete session, in order, when [n] objects exist
    already: the environment is object [n], the test environment [n+1], the
    agent [n+2] and the trainer [n+3]. *)
Definition pipeline (w : world) (s : session_inputs) (n : nat) : list event :=
  let c := effective s in
  let env := n in
  let test_env := S n in
  let agt := S (S n) in
  let trn := S (S (S n)) in
  (snippet_step (header c) ++
   [ EvDistribute env (environment c) (Some (parallel c, sequential c));
     EvEnvInitialize env (seed c);
     EvDistribute test_env (test_descriptor c) None;
     EvEnvInitialize test_env (seed c + 10000);
     EvInstantiate agt (agent c);
     EvAgentInitialize agt (ObservationSpace env) (ActionSpace env) (seed c) ] ++
   load_step agt (checkpoint_path s) ++
   [ EvLoggerInitialize (output_dir w) (script_file w) (args s);
     EvInstantiate trn (trainer c);
     EvTrainerInitialize trn agt env test_env ] ++
   snippet_step (before_training c) ++
   [ EvTrainerRun trn ] ++
   snippet_step (after_training c))%list.

(** [covers x full k a]: the run [x] has emitted an initial part of [full],
    and if it returned, it emitted all of [full], left [k] objects and
    returned [a]. *)
Definition covers {A} (x : list event * (nat * result A))
  (full : list event) (k : nat) (a : A) : Prop :=
  (exists rest, full = (trace_of x ++ rest)%list) /\
  (forall b, outcome_of x = Ok b -> x = (full, (k, Ok a))).

(** "First non-empty wins": the effective value is the current one when
    that is true, and otherwise the persisted one, which must then exist. *)
Definition first_non_empty (current : value) (persisted : option value)
  (effective_value : value) : Prop :=
  if truthy current then effective_value = current
  else persisted = Some effective_value.

(** A field is available when the current value is true or a persisted one
    exists. *)
Definition available (current : value) (persisted : option value) : bool :=
  truthy current || match persisted with Some _ => true | None => false end.

(** The test of line 68 and the id of lines 69-70. *)
Definition is_checkpoint_entry (file : string) : bool :=
  (slice_to 5 file =? "step_")%string.

Definition entry_id (file : string) : option Z :=
  int_of_str (slice_from 5 (before_dot file)).

(** The id segment of an entry: the text between the prefix and the first
    dot, which line 70 hands to [int]. *)
Definition id_segment (file : string) : string :=
  slice_from 5 (before_dot file).

(** Text of ASCII characters only: there [int_of_str] is Python's [int]. *)
Fixpoint is_ascii (s : string) : bool :=
  match s with
  | EmptyString => true
  | String c s' => (N_of_ascii c <? 128)%N && is_ascii s'
  end.

(** [returns m]: [m] never raises. *)
Definition returns {A} (m : M A) : Prop :=
  forall n, exists t k a, m n = (t, (k, Ok a)).

(** A snippet that [exec] accepts: empty, or a [str]. *)
Definition runnable (code : value) : bool :=
  negb (truthy code) || match code with VStr _ => true | _ => false end.

(** ** Worked runs *)

(** What a prior run has persisted: descriptors for the agent, the
    environment and the trainer. *)
Definition prior_config : list (string * value) :=
  [ ("header", VStr "import torch");
    ("agent", VDict [("_target_", VStr "tonic.torch.agents.PPO")]);
    ("environment", VDict [("_target_", VStr "tonic.environments.Gym");
                           ("name", VStr "Hopper-v3")]);
    ("test_environment", VNone);
    ("trainer", VDict [("_target_", VStr "tonic.Trainer");
                       ("steps", VInt 500000)]);
    ("before_training", VNone);
    ("after_training", VNone);
    ("parallel", VInt 1);
    ("sequential", VInt 1);
    ("seed", VInt 0);
    ("checkpoint", VStr "last");
    ("checkpoint_output_dir", VNone) ].

(** A machine with two prior runs: [run], with checkpoints at the steps 3,
    7 and 12, and [old], one of whose entries is not numbered.  The working
    directory has an entry [step_5] of its own.  No collaborator raises. *)
Definition machine : world :=
  {| fs_dirs := fun p =>
       if (p =? "run/checkpoints")%string
       then Some ["step_3"; "step_12.pt"; "notes.txt"; "step_7"]
       else if (p =? "old/checkpoints")%string
       then Some ["step_3"; "step_final"; "step_7"]
       else None;
     fs_cwd := ["train.py"; "step_5"];
     fs_config := fun p =>
       if (p =? "run/config.yaml")%string then Parsed (VDict prior_config)
       else if (p =? "old/config.yaml")%string then Parsed (VDict prior_config)
       else NoFile;
     raises := fun _ => None;
     output_dir := "outputs/2024-01-01";
     script_file := "tonic/hydra/train.py" |}.

(** A specification that resumes from [dir] and leaves the descriptors to
    the persisted configuration. *)
Definition resuming (selector : value) (dir : string) : TonicTrainConfig :=
  {| header := VNone;
     agent := VNone;
     environment := VNone;
     test_environment := VNone;
     trainer := VNone;
     before_training := VStr "print('start')";
     after_training := VNone;
     parallel := 4;
     sequential := 2;
     seed := 5;
     checkpoint := selector;
     checkpoint_output_dir := Some dir |}.

(** A specification of a fresh run. *)
Definition starting : TonicTrainConfig :=
  {| header := VStr "import torch";
     agent := VDict [("_target_", VStr "tonic.torch.agents.SAC")];
     environment := VDict [("_target_", VStr "tonic.environments.Gym");
                           ("name", VStr "Walker2d-v3")];
     test_environment := VNone;
     trainer := VDict [("_target_", VStr "tonic.Trainer")];
     before_training := VNone;
     after_training := VStr "print('done')";
     parallel := 4;
     sequential := 2;
     seed := 7;
     checkpoint := VStr "last";
     checkpoint_output_dir := None |}.

(** A specification that resumes from [run] but brings its own agent. *)
Definition resuming_with_agent : TonicTrainConfig :=
  {| header := VNone;
     agent := VDict [("_target_", VStr "tonic.torch.agents.SAC")];
     environment := VNone;
     test_environment := VNone;
     trainer := VNone;
     before_training := VNone;
     after_training := VNone;
     parallel := 1;
     sequential := 1;
     seed := 3;
     checkpoint := VStr "last";
     checkpoint_output_dir := Some "run" |}.

(** ** Further notions *)

(** Two listings of the same entries give the same ids up to order, or
    both fail. *)
Definition same_scan (a b : result (list Z)) : Prop :=
  match a, b with
  | Ok x, Ok y => Permutation.Permutation x y
  | Raise _, Raise _ => True
  | _, _ => False
  end.


(** Every mergeable field is available: true in the current specification
    or present in the persisted one. *)
Definition all_available (cfg : TonicTrainConfig) (config : list (string * value))
  : bool :=
  available (header cfg) (lookup "header" config)
  && available (agent cfg) (lookup "agent" config)
  && available (environment cfg) (lookup "environment" config)
  && available (test_environment cfg) (lookup "test_environment" config)
  && available (trainer cfg) (lookup "trainer" config).

(** [blames w Q m]: when [m] raises, either the last call it made is a
    collaborator's call that raised this very error, or the error is a
    [TypeError] of [main]'s own and [Q] holds. *)
Definition blames {A} (w : world) (Q : Prop) (m : M A) : Prop :=
  forall n t k x,
    m n = (t, (k, Raise x)) ->
    (exists pre e, t = (pre ++ [e])%list /\ raises w e = Some x) \/
    (x = TypeError /\ Q).

(** [TonicTrainConfig()]: the defaults of lines 15-26. *)
Definition TonicTrainConfig_default : TonicTrainConfig :=
  {| header := VNone;
     agent := VNone;
     environment := VNone;
     test_environment := VNone;
     trainer := VNone;
     before_training := VNone;
     after_training := VNone;
     parallel := 1;
     sequential := 1;
     seed := 0;
     checkpoint := VStr "last";
     checkpoint_output_dir := None |}.

(** The defaults with the three descriptors a run cannot do without. *)
Definition with_descriptors (agent_d environment_d trainer_d : value)
  : TonicTrainConfig :=
  {| header := header TonicTrainConfig_default;
     agent := agent_d;
     environment := environment_d;
     test_environment := test_environment TonicTrainConfig_default;
     trainer := trainer_d;
     before_training := before_training TonicTrainConfig_default;
     after_training := after_training TonicTrainConfig_default;
     parallel := parallel TonicTrainConfig_default;
     sequential := sequential TonicTrainConfig_default;
     seed := seed TonicTrainConfig_default;
     checkpoint := checkpoint TonicTrainConfig_default;
     checkpoint_output_dir := checkpoint_output_dir TonicTrainConfig_default |}.

(** A second machine: the prior run [run] with its entries listed in
    another order, a prior run [bare] without any step and with a
    [config.yaml] that does not parse, a prior run [second] that had itself
    resumed from [run], and no [step_] entry in the working directory.
    On this machine [agent.load] raises. *)
Definition workshop : world :=
  {| fs_dirs := fun p =>
       if (p =? "run/checkpoints")%string
       then Some ["step_12.pt"; "step_3"; "notes.txt"; "step_7"]
       else if (p =? "bare/checkpoints")%string
       then Some ["notes.txt"; "Step_1"; "steps"]
       else None;
     fs_cwd := ["train.py"; "outputs"];
     fs_config := fun p =>
       if (p =? "run/config.yaml")%string then Parsed (VDict prior_config)
       else if (p =? "bare/config.yaml")%string then Unparseable
       else if (p =? "second/config.yaml")%string
       then Parsed (VDict (capture_args (resuming (VStr "last") "run")))
       else NoFile;
     raises := fun e =>
       match e with
       | EvAgentLoad _ _ => Some (CollaboratorError "agent.load")
       | _ => None
       end;
     output_dir := "outputs/2024-01-02";
     script_file := "tonic/hydra/train.py" |}.

(** A specification that resumes from [run] with an agent descriptor that
    is supplied but empty. *)
Definition resuming_with_empty_agent : TonicTrainConfig :=
  {| header := VNone;
     agent := VDict [];
     environment := VNone;
     test_environment := VNone;
     trainer := VNone;
     before_training := VNone;
     after_training := VNone;
     parallel := 1;
     sequential := 1;
     seed := 3;
     checkpoint := VStr "last";
     checkpoint_output_dir := Some "run" |}.

(** The effective specification of the run that resumes from [run]. *)
Definition effective_of_resumed : TonicTrainConfig :=
  {| header := VStr "import torch";
     agent := VDict [("_target_", VStr "tonic.torch.agents.PPO")];
     environment := VDict [("_target_", VStr "tonic.environments.Gym");
                           ("name", VStr "Hopper-v3")];
     test_environment := VNone;
     trainer := VDict [("_target_", VStr "tonic.Trainer");
                       ("steps", VInt 500000)];
     before_training := VStr "print('start')";
     after_training := VNone;
     parallel := 4;
     sequential := 2;
     seed := 5;
     checkpoint := VStr "last";
     checkpoint_output_dir := Some "run" |}.

(** * Properties *)

(** ** Reasoning about computations *)

Section Monad_facts.

Context {A B : Type}.

Lemma bind_ok (m : M A) (f : A -> M B) n t n1 a :
  m n = (t, (n1, Ok a)) ->
  bind m f n = ((t ++ trace_of (f a n1))%list, snd (f a n1)).
Proof.
  intros E. unfold bind, trace_of. rewrite E. now destruct (f a n1).
Qed.

Lemma bind_raise (m : M A) (f : A -> M B) n t n1 e :
  m n = (t, (n1, Raise e)) ->
  bind m f n = (t, (n1, Raise e)).
Proof.
  intros E. unfold bind. now rewrite E.
Qed.

(** A computation that returns after [bind] went through both halves. *)
Lemma bind_inv_ok (m : M A) (f : A -> M B) n t n2 b :
  bind m f n = (t, (n2, Ok b)) ->
  exists t1 n1 a t2,
    m n = (t1, (n1, Ok a)) /\ f a n1 = (t2, (n2, Ok b)) /\ t = (t1 ++ t2)%list.
Proof.
  unfold bind. destruct (m n) as [t1 [n1 [a|e]]]; [|discriminate].
  destruct (f a n1) as [t2 [n2' r]] eqn:E. intros H. inversion H; subst.
  now exists t1, n1, a, t2.
Qed.

End Monad_facts.

Section Emits.

Context {A B : Type} (P : event -> Prop).

Lemma emits_ret (a : A) : emits P (ret a).
Proof. intros n. constructor. Qed.

Lemma emits_raise (e : exn) : emits P (raise (A := A) e).
Proof. intros n. constructor. Qed.

Lemma emits_lift (r : result A) : emits P (lift r).
Proof. intros n. constructor. Qed.

Lemma emits_fresh : emits P fresh.
Proof. intros n. constructor. Qed.

Lemma emits_emit e : P e -> emits P (emit e).
Proof. intros H n. now repeat constructor. Qed.

Lemma emits_call w e : P e -> emits P (call w e).
Proof. intros H n. now repeat constructor. Qed.

Lemma emits_bind (m : M A) (f : A -> M B) :
  emits P m -> (forall a, emits P (f a)) -> emits P (bind m f).
Proof.
  intros Hm Hf n. specialize (Hm n). unfold bind, trace_of in *.
  destruct (m n) as [t1 [n1 [a|e]]]; simpl in *; [|assumption].
  specialize (Hf a n1). unfold trace_of in Hf.
  destruct (f a n1) as [t2 r]. simpl in *. now apply Forall_app.
Qed.

Lemma emits_if (b : bool) (m1 m2 : M A) :
  emits P m1 -> emits P m2 -> emits P (if b then m1 else m2).
Proof. now destruct b. Qed.

Lemma alloc_ret (a : A) : allocates_nothing (ret a).
Proof. now intros n. Qed.

Lemma alloc_raise (e : exn) : allocates_nothing (raise (A := A) e).
Proof. now intros n. Qed.

Lemma alloc_lift (r : result A) : allocates_nothing (lift r).
Proof. now intros n. Qed.

Lemma alloc_emit e : allocates_nothing (emit e).
Proof. now intros n. Qed.

Lemma alloc_bind (m : M A) (f : A -> M B) :
  allocates_nothing m -> (forall a, allocates_nothing (f a)) ->
  allocates_nothing (bind m f).
Proof.
  intros Hm Hf n. specialize (Hm n). unfold bind.
  destruct (m n) as [t1 [n1 [a|e]]]; simpl in *; [|assumption].
  specialize (Hf a n1). destruct (f a n1) as [t2 [n2 r]]. simpl in *. congruence.
Qed.

Lemma alloc_if (b : bool) (m1 m2 : M A) :
  allocates_nothing m1 -> allocates_nothing m2 ->
  allocates_nothing (if b then m1 else m2).
Proof. now destruct b. Qed.

End Emits.

(** Splits on the first [if] or [match] of a computation. *)
Ltac split_run :=
  match goal with
  | |- emits _ (if ?b then _ else _) => destruct b
  | |- emits _ (match ?x with _ => _ end) => destruct x
  | |- allocates_nothing (if ?b then _ else _) => destruct b
  | |- allocates_nothing (match ?x with _ => _ end) => destruct x
  end.

Ltac walk_run :=
  repeat first
    [ progress intros
    | apply emits_bind | apply emits_ret | apply emits_raise | apply emits_lift
    | apply emits_fresh
    | apply emits_emit; reflexivity
    | apply emits_call; reflexivity
    | apply alloc_bind | apply alloc_ret | apply alloc_raise | apply alloc_lift
    | apply alloc_emit
    | split_run ].

Section Phases.

Variable w : world.

Lemma resolve_weights_emits checkpoint agent dir :
  emits (fun e => is_step e = false) (resolve_weights w checkpoint agent dir).
Proof.
  unfold resolve_weights, select_checkpoint, choose_checkpoint, step_path,
    isdir, listdir.
  walk_run.
Qed.

Lemma resolve_weights_allocates_nothing checkpoint agent dir :
  allocates_nothing (resolve_weights w checkpoint agent dir).
Proof.
  unfold resolve_weights, select_checkpoint, choose_checkpoint, step_path,
    isdir, listdir.
  walk_run.
Qed.

Lemma prepare_emits cfg :
  emits (fun e => is_step e = false) (prepare w cfg).
Proof.
  unfold prepare. destruct (truthy_opt _); [|walk_run].
  apply emits_bind; [walk_run|intros _].
  apply emits_bind; [apply resolve_weights_emits|intros cp].
  unfold reconcile, load_config, or_attr. walk_run.
Qed.

Lemma prepare_allocates_nothing cfg : allocates_nothing (prepare w cfg).
Proof.
  unfold prepare. destruct (truthy_opt _); [|walk_run].
  apply alloc_bind; [walk_run|intros _].
  apply alloc_bind; [apply resolve_weights_allocates_nothing|intros cp].
  unfold reconcile, load_config, or_attr. walk_run.
Qed.

Lemma run_session_emits s :
  emits (fun e => is_step e = true) (run_session w s).
Proof.
  unfold run_session, py_exec, distribute, instantiate. walk_run.
Qed.

End Phases.

Section Covers.

Context {A B : Type}.

Lemma covers_ret (a : A) n : covers (ret a n) [] n a.
Proof. split; [now exists []|]. intros b H. inversion H. reflexivity. Qed.

Lemma covers_raise (e : exn) n full k (a : A) : covers (raise e n) full k a.
Proof. split; [now exists full|]. intros b H. discriminate. Qed.

Lemma covers_fresh n : covers (fresh n) [] (S n) n.
Proof. split; [now exists []|]. intros b H. inversion H. reflexivity. Qed.

Lemma covers_call w e n : covers (call w e n) [e] n tt.
Proof.
  split; [now exists []|]. unfold call, outcome_of. simpl.
  destruct (raises w e); [discriminate|reflexivity].
Qed.

Lemma covers_bind (m : M A) (f : A -> M B) n t1 k a t2 k' b :
  covers (m n) t1 k a ->
  covers (f a k) t2 k' b ->
  covers (bind m f n) (t1 ++ t2)%list k' b.
Proof.
  intros [[r1 P1] O1] [[r2 P2] O2]. unfold bind, trace_of, outcome_of in *.
  destruct (m n) as [t [k0 [a0|e]]]; simpl in *.
  - pose proof (O1 a0 eq_refl) as E1. injection E1 as Et Ek Ea.
    subst t k0 a0. clear P1 O1.
    destruct (f a k) as [u [k1 r]]; simpl in *. split.
    + exists r2. rewrite P2. apply app_assoc.
    + intros b0 H. pose proof (O2 b0 H) as E2. injection E2 as Eu Ek Er.
      now subst u k1 r.
  - split; [|discriminate]. exists (r1 ++ t2)%list.
    rewrite P1. symmetry. apply app_assoc.
Qed.

Lemma covers_eq (x : list event * (nat * result A)) full full' k a :
  covers x full k a -> full = full' -> covers x full' k a.
Proof. now intros H <-. Qed.

End Covers.

Section Pipeline.

Variable w : world.

Lemma covers_snippet code n :
  covers ((if truthy code then py_exec w code else ret tt) n)
         (snippet_step code) n tt.
Proof.
  unfold snippet_step, py_exec. destruct (truthy code).
  - destruct code; try apply covers_raise. apply covers_call.
  - apply covers_ret.
Qed.

Lemma covers_load agt cp n :
  covers ((if truthy_opt cp then call w (EvAgentLoad agt (str_opt cp))
           else ret tt) n)
         (load_step agt cp) n tt.
Proof.
  unfold load_step. destruct (truthy_opt cp);
    [apply covers_call|apply covers_ret].
Qed.

Lemma covers_distribute d workers n :
  covers (distribute w d workers n) [EvDistribute n d workers] (S n) n.
Proof.
  unfold distribute.
  eapply covers_eq;
    [eapply covers_bind;
       [apply covers_fresh
       |eapply covers_bind; [apply covers_call|apply covers_ret]]|].
  reflexivity.
Qed.

Lemma covers_instantiate d n :
  covers (instantiate w d n) [EvInstantiate n d] (S n) n.
Proof.
  unfold instantiate.
  eapply covers_eq;
    [eapply covers_bind;
       [apply covers_fresh
       |eapply covers_bind; [apply covers_call|apply covers_ret]]|].
  reflexivity.
Qed.

(** A session, however it ends, has gone through an initial part of the
    pipeline; one that returns has gone through all of it. *)
Lemma run_session_covers s n :
  covers (run_session w s n) (pipeline w s n) (S (S (S (S n)))) tt.
Proof.
  unfold run_session.
  eapply covers_eq.
  - repeat (eapply covers_bind;
            [first [ apply covers_snippet | apply covers_load
                   | apply covers_distribute | apply covers_instantiate
                   | apply covers_call ]|]).
    apply covers_snippet.
  - unfold pipeline, test_descriptor. simpl. reflexivity.
Qed.

Lemma run_session_prefix s n :
  exists rest, pipeline w s n = (trace_of (run_session w s n) ++ rest)%list.
Proof. apply run_session_covers. Qed.

Lemma run_session_ok s n :
  outcome_of (run_session w s n) = Ok tt ->
  trace_of (run_session w s n) = pipeline w s n.
Proof.
  intros H. destruct (run_session_covers s n) as [_ O].
  now rewrite (O tt H).
Qed.

End Pipeline.

(** ** [main] as preparation followed by the session *)

Section Main_facts.

Variable w : world.

(** The preparation leaves the object count at zero, so that the session
    of a run builds the objects 0, 1, 2 and 3. *)
Lemma main_inv cfg t r :
  run (main w cfg) = (t, r) ->
  (exists e, run (prepare w cfg) = (t, Raise e) /\ r = Raise e) \/
  (exists tp s,
      run (prepare w cfg) = (tp, Ok s) /\
      t = (tp ++ trace_of (run_session w s 0%nat))%list /\
      r = outcome_of (run_session w s 0%nat)).
Proof.
  unfold run, main, bind, trace_of, outcome_of.
  pose proof (prepare_allocates_nothing w cfg 0%nat) as K.
  destruct (prepare w cfg 0%nat) as [tp [k [s|e]]]; simpl in *.
  - subst k. destruct (run_session w s 0%nat) as [ts [k r']] eqn:E. simpl.
    intros H. inversion H; subst. right. exists tp, s. now rewrite E.
  - intros H. inversion H; subst. left. now exists e.
Qed.

(** Every event of a run is a preparation event or a step of the pipeline. *)
Lemma main_events cfg t r e :
  run (main w cfg) = (t, r) -> In e t ->
  exists tp,
    (exists r', run (prepare w cfg) = (tp, r')) /\
    (In e tp /\ is_step e = false \/
     is_step e = true /\
     exists s, run (prepare w cfg) = (tp, Ok s) /\ In e (pipeline w s 0%nat)).
Proof.
  intros H Hin. pose proof (prepare_emits w cfg 0%nat) as Q.
  destruct (main_inv _ _ _ H) as [[x [P ->]]|[tp [s [P [-> ->]]]]].
  - exists t. split; [eauto|]. left. split; [assumption|].
    unfold run in P. inversion P as [[Pt Po]]. rewrite Pt in Q.
    rewrite Forall_forall in Q. now apply Q.
  - exists tp. split; [eauto|]. apply in_app_or in Hin as [Hin|Hin].
    + left. split; [assumption|]. unfold run in P. inversion P as [[Pt Po]].
      rewrite Pt in Q. rewrite Forall_forall in Q. now apply Q.
    + right. split.
      * pose proof (run_session_emits w s 0%nat) as S.
        rewrite Forall_forall in S. now apply S.
      * exists s. split; [assumption|].
        destruct (run_session_prefix w s 0%nat) as [rest ->].
        apply in_or_app. now left.
Qed.

End Main_facts.

(** ** Facts about the builtins *)

Lemma fold_max_spec l x :
  In (fold_left Z.max l x) (x :: l) /\
  forall y, In y (x :: l) -> y <= fold_left Z.max l x.
Proof.
  revert x. induction l as [|a l IH]; intros x; simpl.
  - split; [now left|]. intros y [->|[]]. lia.
  - destruct (IH (Z.max x a)) as [I U]. split.
    + destruct I as [E|I]; [|now right; right].
      rewrite <- E. destruct (Z.max_spec x a) as [[_ ->]|[_ ->]]; auto.
    + intros y Hy. assert (y <= Z.max x a \/ In y l) as [L|L].
      { destruct Hy as [->|[->|Hy]]; [left; lia|left; lia|now right]. }
      * specialize (U (Z.max x a) (or_introl eq_refl)). lia.
      * apply U. now right.
Qed.

Lemma fold_min_spec l x :
  In (fold_left Z.min l x) (x :: l) /\
  forall y, In y (x :: l) -> fold_left Z.min l x <= y.
Proof.
  revert x. induction l as [|a l IH]; intros x; simpl.
  - split; [now left|]. intros y [->|[]]. lia.
  - destruct (IH (Z.min x a)) as [I U]. split.
    + destruct I as [E|I]; [|now right; right].
      rewrite <- E. destruct (Z.min_spec x a) as [[_ ->]|[_ ->]]; auto.
    + intros y Hy. assert (Z.min x a <= y \/ In y l) as [L|L].
      { destruct Hy as [->|[->|Hy]]; [left; lia|left; lia|now right]. }
      * specialize (U (Z.min x a) (or_introl eq_refl)). lia.
      * apply U. now right.
Qed.

Lemma max_spec l :
  l <> [] ->
  exists m, Py.max l = Some m /\ In m l /\ forall y, In y l -> y <= m.
Proof.
  destruct l as [|x l]; [congruence|intros _].
  exists (fold_left Z.max l x). split; [reflexivity|apply fold_max_spec].
Qed.

Lemma min_spec l :
  l <> [] ->
  exists m, Py.min l = Some m /\ In m l /\ forall y, In y l -> m <= y.
Proof.
  destruct l as [|x l]; [congruence|intros _].
  exists (fold_left Z.min l x). split; [reflexivity|apply fold_min_spec].
Qed.

Lemma mem_In z l : mem z l = true <-> In z l.
Proof.
  unfold mem. rewrite existsb_exists. split.
  - intros [x [I E]]. apply Z.eqb_eq in E. now subst.
  - intros I. exists z. split; [assumption|apply Z.eqb_refl].
Qed.

(** ** The checkpoint resolver *)

Section Resolver.

Variable w : world.

(** The resolver when the checkpoints directory exists: it checks the
    directory, lists it, and chooses among the ids of its entries. *)
Lemma select_checkpoint_present sel dir files n :
  fs_dirs w (path_join dir "checkpoints") = Some files ->
  let checkpoints := path_join dir "checkpoints" in
  select_checkpoint w sel dir n =
  match scan files [] with
  | Ok ids =>
      (([EvIsDir checkpoints; EvListDir (Some checkpoints)]
        ++ trace_of (choose_checkpoint sel (Some checkpoints) ids n))%list,
       snd (choose_checkpoint sel (Some checkpoints) ids n))
  | Raise e =>
      ([EvIsDir checkpoints; EvListDir (Some checkpoints)], (n, Raise e))
  end.
Proof.
  intros H checkpoints. subst checkpoints.
  unfold select_checkpoint, isdir, listdir, bind, emit, ret, raise, lift,
    trace_of.
  rewrite H. simpl. rewrite H. simpl.
  destruct (scan files []) as [ids|e]; [|reflexivity].
  now destruct (choose_checkpoint _ _ _ _) as [t r].
Qed.

(** The resolver when it does not exist: the error is logged, the variable
    [checkpoint_path] becomes [None], and the working directory is listed
    in its place. *)
Lemma select_checkpoint_missing sel dir n :
  fs_dirs w (path_join dir "checkpoints") = None ->
  let checkpoints := path_join dir "checkpoints" in
  let reported :=
    [EvIsDir checkpoints;
     EvLogError (checkpoints ++ " is not a directory");
     EvListDir None] in
  select_checkpoint w sel dir n =
  match scan (fs_cwd w) [] with
  | Ok ids =>
      ((reported ++ trace_of (choose_checkpoint sel None ids n))%list,
       snd (choose_checkpoint sel None ids n))
  | Raise e => (reported, (n, Raise e))
  end.
Proof.
  intros H checkpoints reported. subst checkpoints reported.
  unfold select_checkpoint, isdir, listdir, bind, emit, ret, raise, lift,
    trace_of.
  rewrite H. simpl.
  destruct (scan (fs_cwd w) []) as [ids|e]; [|reflexivity].
  now destruct (choose_checkpoint _ _ _ _) as [t r].
Qed.

(** With no [step_] entry in the working directory, the missing directory
    ends in no checkpoint, after a second error. *)
Lemma missing_directory_without_entries sel dir :
  fs_dirs w (path_join dir "checkpoints") = None ->
  scan (fs_cwd w) [] = Ok [] ->
  run (select_checkpoint w sel dir)
  = ([EvIsDir (path_join dir "checkpoints");
      EvLogError (path_join dir "checkpoints" ++ " is not a directory");
      EvListDir None;
      EvLogError "No checkpoint found in None"],
     Ok None).
Proof.
  intros H S. unfold run.
  rewrite (select_checkpoint_missing sel dir 0%nat H). cbv zeta.
  now rewrite S.
Qed.

(** With such an entry, the selectors ['last'] and ['first'] join the path
    [None] with the name of a step, which raises. *)
Lemma missing_directory_with_entries sel dir i ids :
  fs_dirs w (path_join dir "checkpoints") = None ->
  scan (fs_cwd w) [] = Ok (i :: ids) ->
  eq_str sel "last" = true \/ eq_str sel "first" = true ->
  run (select_checkpoint w sel dir)
  = ([EvIsDir (path_join dir "checkpoints");
      EvLogError (path_join dir "checkpoints" ++ " is not a directory");
      EvListDir None],
     Raise TypeError).
Proof.
  intros H S L. unfold run.
  rewrite (select_checkpoint_missing sel dir 0%nat H). cbv zeta.
  rewrite S. unfold choose_checkpoint.
  destruct L as [->| ->]; [|destruct (eq_str sel "last")]; reflexivity.
Qed.

End Resolver.

(** C1. Checkpoint selection policy.  In a resume run that does not opt out
    (the selector is not ['none'] and no agent descriptor is supplied), when
    the directory [<checkpoint_output_dir>/checkpoints] exists and its scan
    gives a non-empty list [ids] of step ids: the selector ['last'] resolves
    to [step_m] for the greatest id [m], ['first'] to [step_m] for the least
    id [m], and an integer selector [n] to [step_n] when [n] is among the
    ids, and otherwise to no checkpoint, with an error logged.  In each case
    the resolver only looks into that directory. *)
Theorem checkpoint_selection_policy
  (w : world) (cfg : TonicTrainConfig) (dir : string)
  (files : list string) (ids : list Z) :
  checkpoint_output_dir cfg = Some dir ->
  truthy_opt (Some dir) = true ->
  eq_str (checkpoint cfg) "none" = false ->
  agent cfg = VNone ->
  fs_dirs w (path_join dir "checkpoints") = Some files ->
  scan files [] = Ok ids ->
  ids <> [] ->
  let checkpoints := path_join dir "checkpoints" in
  let scanned := [EvIsDir checkpoints; EvListDir (Some checkpoints)] in
  let resolved := run (resolve_weights w (checkpoint cfg) (agent cfg) dir) in
  (checkpoint cfg = VStr "last" ->
   exists m, In m ids /\ (forall x, In x ids -> x <= m) /\
     resolved = (scanned, Ok (Some (path_join checkpoints ("step_" ++ str_int m)))))
  /\
  (checkpoint cfg = VStr "first" ->
   exists m, In m ids /\ (forall x, In x ids -> m <= x) /\
     resolved = (scanned, Ok (Some (path_join checkpoints ("step_" ++ str_int m)))))
  /\
  (forall n, checkpoint cfg = VInt n ->
     (In n ids ->
      resolved = (scanned, Ok (Some (path_join checkpoints ("step_" ++ str_int n)))))
     /\
     (~ In n ids ->
      resolved =
        ((scanned ++
          [EvLogError ("Checkpoint " ++ str_int n ++ " not found in " ++ checkpoints)])%list,
         Ok None))).
Proof.
  intros _ _ Hnone Hagent Hdir Hscan Hne checkpoints scanned resolved.
  subst resolved scanned checkpoints.
  unfold run, resolve_weights. rewrite Hagent, Hnone. cbn [orb is_not_none].
  rewrite (select_checkpoint_present w _ _ _ _ Hdir), Hscan.
  unfold trace_of, outcome_of.
  destruct ids as [|i ids]; [congruence|].
  repeat split.
  - intros Hsel. destruct (max_spec (i :: ids) Hne) as [m [Hm [Hin Hub]]].
    exists m. repeat split; try assumption.
    unfold choose_checkpoint. rewrite Hsel, Hm. reflexivity.
  - intros Hsel. destruct (min_spec (i :: ids) Hne) as [m [Hm [Hin Hlb]]].
    exists m. repeat split; try assumption.
    unfold choose_checkpoint. rewrite Hsel, Hm. reflexivity.
  - intros Hin. apply mem_In in Hin.
    unfold choose_checkpoint. rewrite H. cbn [eq_str int lift bind].
    unfold bind, lift. rewrite Hin. reflexivity.
  - intros Hnot. assert (mem n (i :: ids) = false) as Hmem.
    { destruct (mem n (i :: ids)) eqn:E; [|reflexivity].
      apply mem_In in E. contradiction. }
    unfold choose_checkpoint. rewrite H. cbn [eq_str int lift bind].
    unfold bind, lift. rewrite Hmem. reflexivity.
Qed.

(** ** The configuration reconciler *)

Section Reconciler.

Variable w : world.

Lemma or_attr_inv current config name n t k v :
  or_attr current config name n = (t, (k, Ok v)) ->
  t = [] /\ k = n /\ first_non_empty current (lookup name config) v.
Proof.
  unfold or_attr, first_non_empty. destruct (truthy current).
  - intros H. inversion H. auto.
  - destruct (lookup name config); intros H; inversion H. auto.
Qed.

Lemma or_attr_available current config name n :
  available current (lookup name config) = true ->
  exists v, or_attr current config name n = ([], (n, Ok v)).
Proof.
  unfold or_attr, available. destruct (truthy current); simpl.
  - intros _. now exists current.
  - destruct (lookup name config) as [v|]; [|discriminate].
    intros _. now exists v.
Qed.

Lemma load_config_inv dir n t k config :
  load_config w dir n = (t, (k, Ok config)) ->
  let arguments_path := path_join dir "config.yaml" in
  fs_config w arguments_path = Parsed (VDict config) /\
  t = [EvOpen arguments_path; EvYamlLoad arguments_path] /\ k = n.
Proof.
  unfold load_config, bind, emit, ret, raise. simpl.
  destruct (fs_config w (path_join dir "config.yaml")) as [| |v];
    try discriminate.
  destruct v; try discriminate. intros H. inversion H. auto.
Qed.

Lemma load_config_parsed dir n config :
  fs_config w (path_join dir "config.yaml") = Parsed (VDict config) ->
  load_config w dir n =
  ([EvOpen (path_join dir "config.yaml"); EvYamlLoad (path_join dir "config.yaml")],
   (n, Ok config)).
Proof.
  intros H. unfold load_config, bind, emit, ret. simpl. now rewrite H.
Qed.

(** Whatever happens, loading starts by opening the file, and does nothing
    to the filesystem but open and parse it. *)
Lemma load_config_opens dir n :
  exists rest,
    trace_of (load_config w dir n) = EvOpen (path_join dir "config.yaml") :: rest /\
    Forall (fun e => e = EvYamlLoad (path_join dir "config.yaml")) rest.
Proof.
  unfold load_config, bind, emit, ret, raise, trace_of. simpl.
  destruct (fs_config w (path_join dir "config.yaml")) as [| |v]; simpl.
  - exists []. auto.
  - eexists. split; [reflexivity|]. auto.
  - destruct v; eexists; (split; [reflexivity|]); auto.
Qed.

Lemma load_config_no_file dir n :
  fs_config w (path_join dir "config.yaml") = NoFile ->
  load_config w dir n =
  ([EvOpen (path_join dir "config.yaml")], (n, Raise FileNotFoundError)).
Proof.
  intros H. unfold load_config, bind, emit, raise. simpl. now rewrite H.
Qed.

(** What a completed reconciliation has done. *)
Lemma reconcile_inv cfg dir cp a n t k s :
  reconcile w cfg dir cp a n = (t, (k, Ok s)) ->
  exists config,
    fs_config w (path_join dir "config.yaml") = Parsed (VDict config) /\
    t = [EvOpen (path_join dir "config.yaml");
         EvYamlLoad (path_join dir "config.yaml")] /\
    k = n /\
    checkpoint_path s = cp /\ args s = a /\
    first_non_empty (header cfg) (lookup "header" config) (header (effective s)) /\
    first_non_empty (agent cfg) (lookup "agent" config) (agent (effective s)) /\
    first_non_empty (environment cfg) (lookup "environment" config)
      (environment (effective s)) /\
    first_non_empty (test_environment cfg) (lookup "test_environment" config)
      (test_environment (effective s)) /\
    first_non_empty (trainer cfg) (lookup "trainer" config) (trainer (effective s)) /\
    before_training (effective s) = before_training cfg /\
    after_training (effective s) = after_training cfg /\
    parallel (effective s) = parallel cfg /\
    sequential (effective s) = sequential cfg /\
    seed (effective s) = seed cfg /\
    checkpoint (effective s) = checkpoint cfg /\
    checkpoint_output_dir (effective s) = checkpoint_output_dir cfg.
Proof.
  unfold reconcile. intros H.
  apply bind_inv_ok in H as (t0 & k0 & config & u0 & L & H & ->).
  apply load_config_inv in L as (L & -> & ->).
  apply bind_inv_ok in H as (t1 & k1 & hd & u1 & A1 & H & ->).
  apply or_attr_inv in A1 as (-> & -> & A1).
  apply bind_inv_ok in H as (t2 & k2 & ag & u2 & A2 & H & ->).
  apply or_attr_inv in A2 as (-> & -> & A2).
  apply bind_inv_ok in H as (t3 & k3 & en & u3 & A3 & H & ->).
  apply or_attr_inv in A3 as (-> & -> & A3).
  apply bind_inv_ok in H as (t4 & k4 & te & u4 & A4 & H & ->).
  apply or_attr_inv in A4 as (-> & -> & A4).
  apply bind_inv_ok in H as (t5 & k5 & tr & u5 & A5 & H & ->).
  apply or_attr_inv in A5 as (-> & -> & A5).
  unfold ret in H. inversion H; subst. exists config. simpl.
  repeat split; assumption.
Qed.

(** When the persisted configuration is a mapping that has every field
    the current one leaves empty, the reconciliation completes. *)
Lemma reconcile_returns cfg dir cp a n config :
  fs_config w (path_join dir "config.yaml") = Parsed (VDict config) ->
  available (header cfg) (lookup "header" config) = true ->
  available (agent cfg) (lookup "agent" config) = true ->
  available (environment cfg) (lookup "environment" config) = true ->
  available (test_environment cfg) (lookup "test_environment" config) = true ->
  available (trainer cfg) (lookup "trainer" config) = true ->
  exists s,
    reconcile w cfg dir cp a n =
    ([EvOpen (path_join dir "config.yaml");
      EvYamlLoad (path_join dir "config.yaml")], (n, Ok s)).
Proof.
  intros L A1 A2 A3 A4 A5. unfold reconcile.
  destruct (or_attr_available _ _ _ n A1) as [hd E1].
  destruct (or_attr_available _ _ _ n A2) as [ag E2].
  destruct (or_attr_available _ _ _ n A3) as [en E3].
  destruct (or_attr_available _ _ _ n A4) as [te E4].
  destruct (or_attr_available _ _ _ n A5) as [tr E5].
  eexists.
  rewrite (bind_ok _ _ _ _ _ _ (load_config_parsed dir n config L)).
  rewrite (bind_ok _ _ _ _ _ _ E1).
  rewrite (bind_ok _ _ _ _ _ _ E2).
  rewrite (bind_ok _ _ _ _ _ _ E3).
  rewrite (bind_ok _ _ _ _ _ _ E4).
  rewrite (bind_ok _ _ _ _ _ _ E5).
  reflexivity.
Qed.

Lemma reconcile_opens cfg dir cp a n :
  exists rest,
    trace_of (reconcile w cfg dir cp a n)
    = EvOpen (path_join dir "config.yaml") :: rest /\
    Forall (fun e => e = EvYamlLoad (path_join dir "config.yaml")) rest.
Proof.
  destruct (load_config_opens dir n) as [rest [E F]].
  unfold reconcile, bind, trace_of in *.
  destruct (load_config w dir n) as [t [k [config|e]]]; simpl in *.
  - exists rest. split; [|assumption]. subst t.
    unfold or_attr, ret, raise.
    repeat match goal with
           | |- context [truthy ?v] => destruct (truthy v)
           | |- context [lookup ?x ?c] => destruct (lookup x c)
           end; simpl; now rewrite ?app_nil_r.
  - exists rest. auto.
Qed.

Lemma reconcile_no_file cfg dir cp a n :
  fs_config w (path_join dir "config.yaml") = NoFile ->
  reconcile w cfg dir cp a n =
  ([EvOpen (path_join dir "config.yaml")], (n, Raise FileNotFoundError)).
Proof.
  intros H. unfold reconcile.
  now rewrite (bind_raise _ _ _ _ _ _ (load_config_no_file dir n H)).
Qed.

(** A fresh run: nothing is done. *)
Lemma prepare_fresh cfg n :
  truthy_opt (checkpoint_output_dir cfg) = false ->
  prepare w cfg n =
  ([], (n, Ok {| effective := cfg; checkpoint_path := None;
                 args := capture_args cfg |})).
Proof. intros H. unfold prepare. now rewrite H. Qed.

(** A resume run: the resolver, and if it returns, the reconciler. *)
Lemma prepare_resume cfg dir n :
  checkpoint_output_dir cfg = Some dir ->
  truthy_opt (Some dir) = true ->
  prepare w cfg n =
  let loading := EvLog ("Loading experiment from " ++ dir) in
  match resolve_weights w (checkpoint cfg) (agent cfg) dir n with
  | (t1, (n1, Ok cp)) =>
      (loading :: t1 ++ trace_of (reconcile w cfg dir cp (capture_args cfg) n1),
       snd (reconcile w cfg dir cp (capture_args cfg) n1))%list
  | (t1, (n1, Raise e)) => (loading :: t1, (n1, Raise e))
  end.
Proof.
  intros D T. unfold prepare. rewrite D, T. simpl str_opt.
  unfold bind at 1. unfold emit at 1. unfold bind at 1.
  destruct (resolve_weights w (checkpoint cfg) (agent cfg) dir n)
    as [t1 [n1 [cp|e]]]; [|reflexivity].
  unfold trace_of. now destruct (reconcile _ _ _ _ _ _) as [t2 r].
Qed.

End Reconciler.

(** ** Steps of the pipeline *)

Lemma snippet_step_exec code e :
  In e (snippet_step code) -> exists c, code = VStr c /\ e = EvExec c.
Proof.
  unfold snippet_step. destruct (truthy code); [|intros []].
  destruct code; simpl; intros I; try contradiction.
  destruct I as [<-|[]]. eauto.
Qed.

Lemma Forall_snippet_step (P : event -> Prop) code :
  (forall c, P (EvExec c)) -> Forall P (snippet_step code).
Proof.
  intros H. apply Forall_forall. intros e I.
  apply snippet_step_exec in I as [c [_ ->]]. apply H.
Qed.

(** Without a resolved checkpoint the pipeline has no load step. *)
Lemma pipeline_no_load w s n :
  truthy_opt (checkpoint_path s) = false ->
  Forall (fun e => is_agent_load e = false) (pipeline w s n).
Proof.
  intros H. unfold pipeline, load_step. rewrite H.
  repeat first [ apply Forall_app; split
               | apply Forall_snippet_step; reflexivity
               | apply Forall_cons; [reflexivity|]
               | apply Forall_nil ].
Qed.

(** The pipeline runs the trainer exactly once. *)
Lemma pipeline_runs_once w s n :
  List.length (filter is_trainer_run (pipeline w s n)) = 1%nat.
Proof.
  assert (forall code, filter is_trainer_run (snippet_step code) = []) as S.
  { intros code. unfold snippet_step.
    destruct (truthy code); [|reflexivity]. now destruct code. }
  unfold pipeline, load_step. rewrite !filter_app, !S.
  destruct (truthy_opt (checkpoint_path s)); reflexivity.
Qed.

Lemma filter_prefix_length {A} (f : A -> bool) (l rest : list A) :
  (List.length (filter f l) <= List.length (filter f (l ++ rest)))%nat.
Proof. rewrite filter_app, List.length_app. lia. Qed.

(** ** The opt-out rule *)

(** Opting out: the resolver logs one line and returns no checkpoint. *)
Lemma opt_out_resolves (w : world) (cfg : TonicTrainConfig) (dir : string) :
  eq_str (checkpoint cfg) "none" = true \/ agent cfg <> VNone ->
  run (resolve_weights w (checkpoint cfg) (agent cfg) dir)
  = ([EvLog "Not loading any weights"], Ok None).
Proof.
  intros O.
  assert (eq_str (checkpoint cfg) "none" || is_not_none (agent cfg) = true) as C.
  { destruct O as [->|N]; [reflexivity|].
    destruct (agent cfg); try congruence; apply orb_true_r. }
  unfold run, resolve_weights. now rewrite C.
Qed.

(** C2. Opt-out rule.  In a resume run whose selector is ['none'] or whose
    current specification supplies an agent descriptor (anything but [None];
    a non-empty descriptor in particular), the resolver yields no checkpoint
    and does nothing but log that no weights will be loaded; in the whole
    run the checkpoint directory is neither tested nor listed and the
    agent's [load] is never called, whatever the filesystem holds. *)
Theorem opt_out_rule (w : world) (cfg : TonicTrainConfig) (dir : string) :
  checkpoint_output_dir cfg = Some dir ->
  truthy_opt (Some dir) = true ->
  eq_str (checkpoint cfg) "none" = true \/ agent cfg <> VNone ->
  run (resolve_weights w (checkpoint cfg) (agent cfg) dir)
  = ([EvLog "Not loading any weights"], Ok None)
  /\
  forall t r, run (main w cfg) = (t, r) ->
    In (EvLog "Not loading any weights") t /\
    (forall e, In e t -> is_scan e = false) /\
    (forall e, In e t -> is_agent_load e = false).
Proof.
  intros D T O.
  assert (eq_str (checkpoint cfg) "none" || is_not_none (agent cfg) = true) as C.
  { destruct O as [->|N]; [reflexivity|].
    destruct (agent cfg); try congruence; apply orb_true_r. }
  assert (forall n, resolve_weights w (checkpoint cfg) (agent cfg) dir n
                    = ([EvLog "Not loading any weights"], (n, Ok None))) as R.
  { intros n. unfold resolve_weights. now rewrite C. }
  split; [unfold run; now rewrite R|].
  intros t r H.
  pose proof (prepare_resume w cfg dir 0%nat D T) as P.
  rewrite R in P. simpl in P.
  destruct (reconcile_opens w cfg dir None (capture_args cfg) 0%nat)
    as [rest [E F]].
  rewrite E in P. rewrite Forall_forall in F.
  assert (forall e, In e (trace_of (prepare w cfg 0%nat)) ->
                    is_scan e = false /\ is_agent_load e = false) as Q.
  { rewrite P. unfold trace_of. simpl.
    intros e [<-|[<-|[<-|I]]]; auto. now rewrite (F e I). }
  destruct (main_inv w cfg t r H) as [[x [Hp ->]]|[tp [s [Hp [-> ->]]]]].
  - unfold run in Hp. injection Hp as Ht Ho. rewrite Ht in Q.
    repeat split; try (intros e I; now apply Q).
    rewrite <- Ht, P. unfold trace_of. simpl. auto.
  - unfold run in Hp. injection Hp as Ht Ho. rewrite Ht in Q.
    assert (checkpoint_path s = None) as N.
    { rewrite P in Ho. unfold outcome_of in Ho. simpl in Ho.
      destruct (reconcile w cfg dir None (capture_args cfg) 0%nat)
        as [u [k [s'|x]]] eqn:Rc; simpl in Ho; [|discriminate].
      injection Ho as ->. now apply reconcile_inv in Rc as (c & _ & _ & _ & ? & _). }
    assert (forall e, In e (trace_of (run_session w s 0%nat)) ->
                      is_scan e = false /\ is_agent_load e = false) as S.
    { intros e I. split.
      - pose proof (run_session_emits w s 0%nat) as St.
        rewrite Forall_forall in St. specialize (St e I). now destruct e.
      - destruct (run_session_prefix w s 0%nat) as [rs Pr].
        pose proof (pipeline_no_load w s 0%nat) as L.
        rewrite N in L. specialize (L eq_refl).
        rewrite Forall_forall in L. apply L. rewrite Pr.
        apply in_or_app. now left. }
    repeat split.
    + apply in_or_app. left. rewrite <- Ht, P. unfold trace_of. simpl. auto.
    + intros e I. apply in_app_or in I as [I|I]; [now apply Q|now apply S].
    + intros e I. apply in_app_or in I as [I|I]; [now apply Q|now apply S].
Qed.

(** ** The scan of the checkpoint directory *)

(** A preparation that raises ends the run with its error. *)
Lemma main_of_prepare_raise w cfg tp k e :
  prepare w cfg 0%nat = (tp, (k, Raise e)) ->
  run (main w cfg) = (tp, Raise e).
Proof.
  intros P. unfold run, main. now rewrite (bind_raise _ _ _ _ _ _ P).
Qed.

Lemma scan_step f files acc :
  scan (f :: files) acc =
  if is_checkpoint_entry f then
    match entry_id f with
    | Some z => scan files (acc ++ [z])%list
    | None => Raise ValueError
    end
  else scan files acc.
Proof.
  unfold is_checkpoint_entry, entry_id. cbn [scan int].
  destruct (slice_to 5 f =? "step_")%string; [|reflexivity].
  now destruct (int_of_str _).
Qed.

Lemma scan_acc files acc :
  scan files acc =
  match scan files [] with
  | Ok ids => Ok (acc ++ ids)%list
  | Raise e => Raise e
  end.
Proof.
  revert acc. induction files as [|f files IH]; intros acc.
  - cbn [scan]. now rewrite app_nil_r.
  - rewrite !scan_step. destruct (is_checkpoint_entry f); [|apply IH].
    destruct (entry_id f) as [z|]; [|reflexivity].
    rewrite (IH (acc ++ [z])%list), (IH ([] ++ [z])%list).
    destruct (scan files []); [|reflexivity].
    now rewrite <- app_assoc.
Qed.

(** One turn of the loop. *)
Lemma scan_cons f files :
  scan (f :: files) [] =
  if is_checkpoint_entry f then
    match entry_id f with
    | Some z =>
        match scan files [] with
        | Ok ids => Ok (z :: ids)
        | Raise e => Raise e
        end
    | None => Raise ValueError
    end
  else scan files [].
Proof.
  rewrite scan_step. destruct (is_checkpoint_entry f); [|reflexivity].
  destruct (entry_id f) as [z|]; [|reflexivity].
  now rewrite scan_acc.
Qed.

(** C4, as the code has it.  Entries whose name does not start with [step_]
    are passed over.  When every entry that starts with [step_] has an id
    segment (the text between the prefix and the first dot) that parses as
    an integer, the scan returns, and the ids it returns are exactly those
    of the entries that start with [step_].  An entry that starts with
    [step_] and whose id segment is ASCII text that is no integer is not
    passed over: the scan raises [ValueError]; and in a resume run that
    does not opt out and whose checkpoints directory holds such an entry,
    the resolver raises that error after listing the directory and the run
    ends with it, before [config.yaml] is opened. *)
Theorem scan_entries
  (w : world) (cfg : TonicTrainConfig) (dir : string) (files : list string) :
  (Forall (fun f => is_checkpoint_entry f = true -> entry_id f <> None) files ->
   exists ids,
     scan files [] = Ok ids /\
     forall z, In z ids <->
       exists f, In f files /\ is_checkpoint_entry f = true /\ entry_id f = Some z)
  /\
  (Exists (fun f => is_checkpoint_entry f = true /\
                    is_ascii (id_segment f) = true /\
                    int_of_str (id_segment f) = None) files ->
   scan files [] = Raise ValueError /\
   (checkpoint_output_dir cfg = Some dir ->
    truthy_opt (Some dir) = true ->
    eq_str (checkpoint cfg) "none" = false ->
    agent cfg = VNone ->
    fs_dirs w (path_join dir "checkpoints") = Some files ->
    run (resolve_weights w (checkpoint cfg) (agent cfg) dir)
    = ([EvIsDir (path_join dir "checkpoints");
        EvListDir (Some (path_join dir "checkpoints"))],
       Raise ValueError)
    /\
    run (main w cfg)
    = ([EvLog ("Loading experiment from " ++ dir);
        EvIsDir (path_join dir "checkpoints");
        EvListDir (Some (path_join dir "checkpoints"))],
       Raise ValueError))).
Proof.
  split.
  - induction files as [|f files IH]; intros W.
    + exists []. split; [reflexivity|]. intros z. split; [intros []|].
      intros [f [[] _]].
    + inversion W as [|? ? Wf Wfiles]; subst.
      destruct (IH Wfiles) as [ids [E I]]. rewrite scan_cons, E.
      destruct (is_checkpoint_entry f) eqn:C.
      * destruct (entry_id f) as [z0|] eqn:Z; [|now destruct (Wf eq_refl)].
        exists (z0 :: ids). split; [reflexivity|]. intros z. split.
        -- intros [<-|Hz].
           ++ exists f. repeat split; auto. now left.
           ++ apply I in Hz as [g [Hg [Cg Zg]]]. exists g.
              repeat split; auto. now right.
        -- intros [g [[<-|Hg] [Cg Zg]]].
           ++ left. congruence.
           ++ right. apply I. now exists g.
      * exists ids. split; [reflexivity|]. intros z. split.
        -- intros Hz. apply I in Hz as [g [Hg [Cg Zg]]]. exists g.
           repeat split; auto. now right.
        -- intros [g [[<-|Hg] [Cg Zg]]]; [congruence|].
           apply I. now exists g.
  - intros X.
    assert (scan files [] = Raise ValueError) as S.
    { clear -X.
      induction files as [|f files IH];
        inversion X as [? ? (C & _ & Z)|? ? Xs]; subst; rewrite scan_cons.
      - change (int_of_str (id_segment f)) with (entry_id f) in Z.
        now rewrite C, Z.
      - rewrite (IH Xs). destruct (is_checkpoint_entry f); [|reflexivity].
        now destruct (entry_id f). }
    split; [exact S|]. intros D T N A F.
    assert (run (resolve_weights w (checkpoint cfg) (agent cfg) dir)
            = ([EvIsDir (path_join dir "checkpoints");
                EvListDir (Some (path_join dir "checkpoints"))],
               Raise ValueError)) as R.
    { unfold run, resolve_weights. rewrite A, N. cbn [orb is_not_none].
      now rewrite (select_checkpoint_present w _ _ _ _ F), S. }
    split; [exact R|].
    pose proof (prepare_resume w cfg dir 0%nat D T) as P. cbv zeta in P.
    unfold run, trace_of, outcome_of in R.
    destruct (resolve_weights w (checkpoint cfg) (agent cfg) dir 0%nat)
      as [t1 [n1 r1]]. simpl in R. injection R as -> ->.
    exact (main_of_prepare_raise w cfg _ _ _ P).
Qed.

(** ** What the preparation leaves untouched *)

Lemma truthy_opt_some o :
  truthy_opt o = true -> exists dir, o = Some dir /\ str_opt o = dir.
Proof. destruct o as [dir|]; [|discriminate]. intros _. now exists dir. Qed.

(** The arguments are captured before the merge, and the variables that
    are not merged keep the values of the current specification. *)
Lemma prepare_frame w cfg n t k s :
  prepare w cfg n = (t, (k, Ok s)) ->
  args s = capture_args cfg /\
  before_training (effective s) = before_training cfg /\
  after_training (effective s) = after_training cfg /\
  parallel (effective s) = parallel cfg /\
  sequential (effective s) = sequential cfg /\
  seed (effective s) = seed cfg /\
  checkpoint (effective s) = checkpoint cfg /\
  checkpoint_output_dir (effective s) = checkpoint_output_dir cfg.
Proof.
  destruct (truthy_opt (checkpoint_output_dir cfg)) eqn:T.
  - destruct (truthy_opt_some _ T) as [dir [D _]]. rewrite D in T.
    rewrite (prepare_resume w cfg dir n D T). cbv zeta.
    destruct (resolve_weights _ _ _ _ _) as [t1 [n1 [cp|e]]]; [|discriminate].
    destruct (reconcile w cfg dir cp (capture_args cfg) n1)
      as [t2 [k2 r2]] eqn:R.
    unfold trace_of. simpl. intros H. injection H as _ _ ->.
    apply reconcile_inv in R
      as (c & _ & _ & _ & _ & ? & _ & _ & _ & _ & _ & ? & ? & ? & ? & ? & ? & ?).
    repeat split; assumption.
  - rewrite (prepare_fresh w cfg n T). intros H. injection H as _ _ <-.
    simpl. repeat split; reflexivity.
Qed.

(** ** The events of the pipeline *)

(** Goes through the cases of an event that is in the pipeline, keeping
    those that agree with what is known of the event. *)
Ltac event_cases :=
  repeat match goal with
         | H : _ \/ _ |- _ => destruct H
         | H : _ /\ _ |- _ => destruct H
         | H : ex _ |- _ => destruct H
         | H : @eq event _ _ |- _ =>
             first [ discriminate H | injection H; clear H; intros; subst ]
         end.

Lemma pipeline_in w s n e :
  In e (pipeline w s n) ->
  let c := effective s in
  (exists code, e = EvExec code) \/
  e = EvDistribute n (environment c) (Some (parallel c, sequential c)) \/
  e = EvEnvInitialize n (seed c) \/
  e = EvDistribute (S n) (test_descriptor c) None \/
  e = EvEnvInitialize (S n) (seed c + 10000) \/
  e = EvInstantiate (S (S n)) (agent c) \/
  e = EvAgentInitialize (S (S n)) (ObservationSpace n) (ActionSpace n) (seed c) \/
  (truthy_opt (checkpoint_path s) = true /\
   e = EvAgentLoad (S (S n)) (str_opt (checkpoint_path s))) \/
  e = EvLoggerInitialize (output_dir w) (script_file w) (args s) \/
  e = EvInstantiate (S (S (S n))) (trainer c) \/
  e = EvTrainerInitialize (S (S (S n))) (S (S n)) n (S n) \/
  e = EvTrainerRun (S (S (S n))).
Proof.
  intros I c. subst c. unfold pipeline, load_step in I.
  repeat (apply in_app_or in I as [I|I]);
    try (apply snippet_step_exec in I as [code [_ ->]]; left; now exists code).
  - simpl in I. intuition auto.
  - destruct (truthy_opt (checkpoint_path s)); [|destruct I].
    destruct I as [<-|[]]. intuition auto.
  - simpl in I. intuition auto.
  - simpl in I. intuition auto.
Qed.

(** ** Runs in which nothing raises *)

Section Returns.

Context {A B : Type}.

Lemma returns_ret (a : A) : returns (ret a).
Proof. intros n. now exists [], n, a. Qed.

Lemma returns_fresh : returns fresh.
Proof. intros n. now exists [], (S n), n. Qed.

Lemma returns_call w e : raises w e = None -> returns (call w e).
Proof. intros H n. exists [e], n, tt. unfold call. now rewrite H. Qed.

Lemma returns_bind (m : M A) (f : A -> M B) :
  returns m -> (forall a, returns (f a)) -> returns (bind m f).
Proof.
  intros Hm Hf n. destruct (Hm n) as (t1 & k1 & a & E1).
  destruct (Hf a k1) as (t2 & k2 & b & E2).
  exists (t1 ++ t2)%list, k2, b.
  rewrite (bind_ok _ _ _ _ _ _ E1). unfold trace_of. now rewrite E2.
Qed.

End Returns.

Lemma returns_snippet w code :
  (forall e, raises w e = None) -> runnable code = true ->
  returns (if truthy code then py_exec w code else ret tt).
Proof.
  intros H R. unfold runnable in R. destruct (truthy code); simpl in R.
  - destruct code; try discriminate. now apply returns_call.
  - apply returns_ret.
Qed.

(** When no collaborator raises and the snippets are empty or text, the
    session runs to its end. *)
Lemma run_session_returns w s :
  (forall e, raises w e = None) ->
  runnable (header (effective s)) = true ->
  runnable (before_training (effective s)) = true ->
  runnable (after_training (effective s)) = true ->
  returns (run_session w s).
Proof.
  intros H R1 R2 R3. unfold run_session, distribute, instantiate.
  repeat first
    [ apply returns_bind; [|intros ?]
    | now apply returns_snippet
    | now apply returns_call
    | apply returns_fresh
    | apply returns_ret
    | match goal with
      | |- returns (if truthy_opt ?o then _ else _) => destruct (truthy_opt o)
      end ].
Qed.

(** ** The configuration merge *)

(** C5. Configuration merge.  In a fresh run the preparation returns the
    current specification unchanged.  In a resume run that gets through the
    preparation, each of [header], [agent], [environment],
    [test_environment] and [trainer] has the current value when that is
    true and the value persisted in [config.yaml] otherwise, while
    [parallel], [sequential], [seed], [checkpoint], [before_training] and
    [after_training] have the current values; and the preparation does get
    through when the resolver returns and [config.yaml] is a mapping that
    has every field the current specification leaves empty. *)
Theorem configuration_merge (w : world) (cfg : TonicTrainConfig) :
  (truthy_opt (checkpoint_output_dir cfg) = false ->
   run (prepare w cfg)
   = ([], Ok {| effective := cfg; checkpoint_path := None;
                args := capture_args cfg |}))
  /\
  (forall dir t s,
     checkpoint_output_dir cfg = Some dir ->
     truthy_opt (Some dir) = true ->
     run (prepare w cfg) = (t, Ok s) ->
     exists config,
       fs_config w (path_join dir "config.yaml") = Parsed (VDict config) /\
       first_non_empty (header cfg) (lookup "header" config)
         (header (effective s)) /\
       first_non_empty (agent cfg) (lookup "agent" config)
         (agent (effective s)) /\
       first_non_empty (environment cfg) (lookup "environment" config)
         (environment (effective s)) /\
       first_non_empty (test_environment cfg) (lookup "test_environment" config)
         (test_environment (effective s)) /\
       first_non_empty (trainer cfg) (lookup "trainer" config)
         (trainer (effective s)) /\
       parallel (effective s) = parallel cfg /\
       sequential (effective s) = sequential cfg /\
       seed (effective s) = seed cfg /\
       checkpoint (effective s) = checkpoint cfg /\
       before_training (effective s) = before_training cfg /\
       after_training (effective s) = after_training cfg)
  /\
  (forall dir config tr cp,
     checkpoint_output_dir cfg = Some dir ->
     truthy_opt (Some dir) = true ->
     run (resolve_weights w (checkpoint cfg) (agent cfg) dir) = (tr, Ok cp) ->
     fs_config w (path_join dir "config.yaml") = Parsed (VDict config) ->
     available (header cfg) (lookup "header" config) = true ->
     available (agent cfg) (lookup "agent" config) = true ->
     available (environment cfg) (lookup "environment" config) = true ->
     available (test_environment cfg) (lookup "test_environment" config) = true ->
     available (trainer cfg) (lookup "trainer" config) = true ->
     exists t s, run (prepare w cfg) = (t, Ok s) /\ checkpoint_path s = cp).
Proof.
  repeat split.
  - intros T. unfold run. now rewrite (prepare_fresh w cfg 0%nat T).
  - intros dir t s D T. unfold run.
    rewrite (prepare_resume w cfg dir 0%nat D T). cbv zeta.
    destruct (resolve_weights _ _ _ _ _) as [t1 [n1 [cp|e]]];
      [|discriminate].
    destruct (reconcile w cfg dir cp (capture_args cfg) n1)
      as [t2 [k2 r2]] eqn:R.
    unfold trace_of, outcome_of. simpl. intros H. injection H as _ ->.
    apply reconcile_inv in R
      as (c & L & _ & _ & _ & _ & ? & ? & ? & ? & ? & ? & ? & ? & ? & ? & ? & _).
    exists c. repeat split; assumption.
  - intros dir config tr cp D T Rs L A1 A2 A3 A4 A5. unfold run in *.
    rewrite (prepare_resume w cfg dir 0%nat D T). cbv zeta.
    destruct (resolve_weights _ _ _ _ _) as [t1 [n1 [cp'|e]]];
      unfold outcome_of in Rs; simpl in Rs; [|discriminate].
    injection Rs as _ ->.
    destruct (reconcile_returns w cfg dir cp (capture_args cfg) n1 config
                L A1 A2 A3 A4 A5) as [s E].
    pose proof E as E'. apply reconcile_inv in E' as (c & _ & _ & _ & ? & _).
    rewrite E. unfold trace_of, outcome_of. simpl. eauto.
Qed.

(** ** The test environment *)

(** C6. Test environment construction.  In every run the second object
    built, the test environment, comes from a [distribute] call that passes
    no worker counts, so that it runs with the defaults [(1, 1)] whatever
    [parallel] and [sequential] are; its descriptor is the effective
    [test_environment] when that is true and otherwise the descriptor of
    the training environment; and its [initialize] is called with
    [seed + 10000].  A run that returns has made both calls. *)
Theorem test_environment_construction
  (w : world) (cfg : TonicTrainConfig) (t : list event) (r : result unit) :
  run (main w cfg) = (t, r) ->
  (forall d workers, In (EvDistribute 1%nat d workers) t ->
     workers = None /\ workers_of workers = (1, 1) /\
     exists tp s,
       run (prepare w cfg) = (tp, Ok s) /\
       d = (if truthy (test_environment (effective s))
            then test_environment (effective s)
            else environment (effective s)) /\
       (forall d0 workers0, In (EvDistribute 0%nat d0 workers0) t ->
          d0 = environment (effective s)))
  /\
  (forall sd, In (EvEnvInitialize 1%nat sd) t -> sd = seed cfg + 10000)
  /\
  (r = Ok tt ->
   exists d, In (EvDistribute 1%nat d None) t /\
             In (EvEnvInitialize 1%nat (seed cfg + 10000)) t).
Proof.
  intros H.
  assert (forall e, In e t -> is_step e = true ->
            exists tp s, run (prepare w cfg) = (tp, Ok s) /\
                         seed (effective s) = seed cfg /\
                         In e (pipeline w s 0%nat)) as Steps.
  { intros e I S.
    destruct (main_events w cfg t r e H I)
      as [tp [_ [[_ S']|[_ [s [P I']]]]]]; [congruence|].
    exists tp, s. repeat split; try assumption.
    unfold run in P. injection P as _ P. unfold outcome_of in P.
    destruct (prepare w cfg 0%nat) as [tp' [k [s'|x]]] eqn:E; simpl in P;
      [|discriminate].
    injection P as ->. now apply prepare_frame in E as (_ & _ & _ & _ & _ & ? & _). }
  split; [|split].
  - intros d workers I.
    destruct (Steps _ I eq_refl) as (tp & s & P & Sd & Ip).
    apply pipeline_in in Ip. cbv zeta in Ip. event_cases.
    repeat split. exists tp, s. repeat split; [assumption|].
    intros d0 workers0 I0.
    destruct (Steps _ I0 eq_refl) as (tp' & s' & P' & _ & Ip').
    rewrite P in P'. injection P' as _ <-.
    apply pipeline_in in Ip'. cbv zeta in Ip'. event_cases. reflexivity.
  - intros sd I.
    destruct (Steps _ I eq_refl) as (tp & s & P & Sd & Ip).
    apply pipeline_in in Ip. cbv zeta in Ip. event_cases. now rewrite Sd.
  - intros ->.
    destruct (main_inv w cfg t (Ok tt) H) as [[x [_ X]]|[tp [s [P [-> O]]]]];
      [discriminate|].
    symmetry in O. rewrite (run_session_ok w s 0%nat O).
    unfold run in P. injection P as _ P. unfold outcome_of in P.
    destruct (prepare w cfg 0%nat) as [tp' [k [s'|x]]] eqn:E; simpl in P;
      [|discriminate].
    injection P as ->. apply prepare_frame in E as (_ & _ & _ & _ & _ & Sd & _).
    exists (test_descriptor (effective s)). rewrite <- Sd.
    split; apply in_or_app; right; unfold pipeline;
      apply in_or_app; right; simpl; auto.
Qed.

(** ** The order of the pipeline *)

(** C7. Pipeline ordering.  The trace of a run that returns is the trace of
    its preparation, which consists of log lines and filesystem accesses
    only, followed by exactly these steps in this order: the header snippet
    if it is non-empty; the build of the training environment and its
    [initialize(seed)]; the build of the test environment and its
    [initialize]; the build of the agent and its [initialize] with the
    spaces of the training environment and the seed; [agent.load] if a
    checkpoint was resolved; the initialization of the logger; the build of
    the trainer and its [initialize] with the agent and both environments;
    the [before_training] snippet if non-empty; [trainer.run()]; the
    [after_training] snippet if non-empty. *)
Theorem pipeline_order
  (w : world) (cfg : TonicTrainConfig) (t : list event) :
  run (main w cfg) = (t, Ok tt) ->
  exists tp s,
    run (prepare w cfg) = (tp, Ok s) /\
    Forall (fun e => is_step e = false) tp /\
    let c := effective s in
    let env := 0%nat in
    let test_env := 1%nat in
    let agt := 2%nat in
    let trn := 3%nat in
    t = (tp ++
         snippet_step (header c) ++
         [ EvDistribute env (environment c) (Some (parallel c, sequential c));
           EvEnvInitialize env (seed c);
           EvDistribute test_env
             (if truthy (test_environment c) then test_environment c
              else environment c) None;
           EvEnvInitialize test_env (seed c + 10000);
           EvInstantiate agt (agent c);
           EvAgentInitialize agt (ObservationSpace env) (ActionSpace env) (seed c) ] ++
         (if truthy_opt (checkpoint_path s)
          then [EvAgentLoad agt (str_opt (checkpoint_path s))] else []) ++
         [ EvLoggerInitialize (output_dir w) (script_file w) (args s);
           EvInstantiate trn (trainer c);
           EvTrainerInitialize trn agt env test_env ] ++
         snippet_step (before_training c) ++
         [ EvTrainerRun trn ] ++
         snippet_step (after_training c))%list.
Proof.
  intros H.
  destruct (main_inv w cfg t (Ok tt) H) as [[x [_ X]]|[tp [s [P [-> O]]]]];
    [discriminate|].
  exists tp, s. split; [assumption|]. split.
  - pose proof (prepare_emits w cfg 0%nat) as Q. unfold run in P.
    injection P as Pt _. now rewrite Pt in Q.
  - symmetry in O. now rewrite (run_session_ok w s 0%nat O).
Qed.

(** ** The arguments given to the logger *)

(** C8, as the code has it.  The logger is initialized with the output
    directory, the path of the script, and a flat mapping of the twelve
    fields to the values of the current specification, captured before the
    merge; the mapping has no entry for the configuration object.  A run
    that returns has initialized the logger. *)
Theorem logger_arguments
  (w : world) (cfg : TonicTrainConfig) (t : list event) (r : result unit) :
  run (main w cfg) = (t, r) ->
  (forall out script config,
     In (EvLoggerInitialize out script config) t ->
     out = output_dir w /\ script = script_file w /\
     lookup "cfg" config = None /\
     config =
       [ ("header", header cfg);
         ("agent", agent cfg);
         ("environment", environment cfg);
         ("test_environment", test_environment cfg);
         ("trainer", trainer cfg);
         ("before_training", before_training cfg);
         ("after_training", after_training cfg);
         ("parallel", VInt (parallel cfg));
         ("sequential", VInt (sequential cfg));
         ("seed", VInt (seed cfg));
         ("checkpoint", checkpoint cfg);
         ("checkpoint_output_dir", of_opt (checkpoint_output_dir cfg)) ])
  /\
  (r = Ok tt ->
   In (EvLoggerInitialize (output_dir w) (script_file w) (capture_args cfg)) t).
Proof.
  intros H. split.
  - intros out script config I.
    destruct (main_events w cfg t r _ H I)
      as [tp [_ [[_ S']|[_ [s [P Ip]]]]]]; [discriminate|].
    unfold run in P. injection P as _ P. unfold outcome_of in P.
    destruct (prepare w cfg 0%nat) as [tp' [k [s'|x]]] eqn:E; simpl in P;
      [|discriminate].
    injection P as ->. apply prepare_frame in E as (A & _).
    apply pipeline_in in Ip. cbv zeta in Ip. event_cases.
    rewrite A. repeat split; reflexivity.
  - intros ->.
    destruct (main_inv w cfg t (Ok tt) H) as [[x [_ X]]|[tp [s [P [-> O]]]]];
      [discriminate|].
    symmetry in O. rewrite (run_session_ok w s 0%nat O).
    unfold run in P. injection P as _ P. unfold outcome_of in P.
    destruct (prepare w cfg 0%nat) as [tp' [k [s'|x]]] eqn:E; simpl in P;
      [|discriminate].
    injection P as ->. apply prepare_frame in E as (A & _). rewrite <- A.
    apply in_or_app; right. unfold pipeline.
    apply in_or_app; right. apply in_or_app; right.
    apply in_or_app; right. simpl. auto.
Qed.

(** ** Fresh runs *)

(** C9. Fresh run isolation.  In a run without [checkpoint_output_dir] the
    preparation does nothing and resolves no checkpoint; no event of the run
    touches the filesystem; the agent's [load] is never called; and
    [trainer.run()] is called at most once, exactly once when the run
    returns, which it does when no collaborator raises and the snippets are
    empty or text. *)
Theorem fresh_run_isolation
  (w : world) (cfg : TonicTrainConfig) (t : list event) (r : result unit) :
  truthy_opt (checkpoint_output_dir cfg) = false ->
  run (main w cfg) = (t, r) ->
  run (prepare w cfg)
  = ([], Ok {| effective := cfg; checkpoint_path := None;
               args := capture_args cfg |})
  /\ (forall e, In e t -> is_filesystem e = false)
  /\ (forall e, In e t -> is_agent_load e = false)
  /\ (List.length (filter is_trainer_run t) <= 1)%nat
  /\ (r = Ok tt -> List.length (filter is_trainer_run t) = 1%nat)
  /\ ((forall e, raises w e = None) ->
      runnable (header cfg) = true ->
      runnable (before_training cfg) = true ->
      runnable (after_training cfg) = true ->
      r = Ok tt).
Proof.
  intros T H.
  pose proof (prepare_fresh w cfg 0%nat T) as P.
  set (s := {| effective := cfg; checkpoint_path := None;
               args := capture_args cfg |}) in *.
  assert (t = trace_of (run_session w s 0%nat) /\
          r = outcome_of (run_session w s 0%nat)) as [-> ->].
  { unfold run, main, bind in H. rewrite P in H. unfold trace_of, outcome_of in *.
    destruct (run_session w s 0%nat) as [ts [k rs]]. simpl in *.
    injection H as <- <-. auto. }
  destruct (run_session_prefix w s 0%nat) as [rest Pr].
  split; [unfold run; now rewrite P|].
  split; [|split; [|split; [|split]]].
  - intros e I. pose proof (run_session_emits w s 0%nat) as St.
    rewrite Forall_forall in St. specialize (St e I). now destruct e.
  - intros e I. pose proof (pipeline_no_load w s 0%nat eq_refl) as L.
    rewrite Forall_forall in L. apply L. rewrite Pr.
    apply in_or_app. now left.
  - rewrite <- (pipeline_runs_once w s 0%nat), Pr.
    apply filter_prefix_length.
  - intros O. rewrite (run_session_ok w s 0%nat O).
    apply pipeline_runs_once.
  - intros N R1 R2 R3.
    destruct (run_session_returns w s N R1 R2 R3 0%nat) as (ts & k & [] & E).
    now rewrite E.
Qed.

(** ** The persisted configuration *)

Lemma reconcile_parses w cfg dir cp a n :
  fs_config w (path_join dir "config.yaml") <> NoFile ->
  In (EvYamlLoad (path_join dir "config.yaml"))
     (trace_of (reconcile w cfg dir cp a n)).
Proof.
  intros N. unfold reconcile, bind at 1.
  assert (exists k r, load_config w dir n
                      = ([EvOpen (path_join dir "config.yaml");
                          EvYamlLoad (path_join dir "config.yaml")], (k, r)))
    as (k & r & E).
  { unfold load_config, bind, emit, ret, raise. simpl.
    destruct (fs_config w (path_join dir "config.yaml")) as [| |v];
      [congruence|eauto|]. destruct v; eauto. }
  rewrite E. destruct r as [config|e]; [|simpl; auto].
  match goal with |- context [let (_, _) := ?x in _] => destruct x end.
  simpl. auto.
Qed.

(** The trace of a run starts with the trace of its preparation, and a
    preparation that raises ends the run. *)
Lemma main_prefix w cfg t r :
  run (main w cfg) = (t, r) ->
  (exists rest, t = (trace_of (prepare w cfg 0%nat) ++ rest)%list) /\
  (forall e, outcome_of (prepare w cfg 0%nat) = Raise e -> r = Raise e).
Proof.
  intros H.
  destruct (main_inv w cfg t r H) as [[x [P ->]]|[tp [s [P [-> ->]]]]];
    unfold run in P; injection P as Pt Po; rewrite Pt, Po.
  - split; [exists []; now rewrite app_nil_r|]. congruence.
  - split; [eauto|]. discriminate.
Qed.

(** C10.  In a resume run the file [<checkpoint_output_dir>/config.yaml] is
    opened, and parsed when it can be opened, whenever the resolver returns;
    in particular when the run opts out of loading weights, where the
    resolver always returns.  When the file is missing the run does not
    return: it raises, and what it raises is the error of [open] unless the
    resolver has raised before. *)
Theorem persisted_configuration_is_read
  (w : world) (cfg : TonicTrainConfig) (dir : string)
  (t : list event) (r : result unit) :
  checkpoint_output_dir cfg = Some dir ->
  truthy_opt (Some dir) = true ->
  run (main w cfg) = (t, r) ->
  let arguments_path := path_join dir "config.yaml" in
  let resolved := run (resolve_weights w (checkpoint cfg) (agent cfg) dir) in
  (forall tr cp, resolved = (tr, Ok cp) ->
     In (EvOpen arguments_path) t /\
     (fs_config w arguments_path <> NoFile -> In (EvYamlLoad arguments_path) t))
  /\
  (eq_str (checkpoint cfg) "none" = true \/ agent cfg <> VNone ->
   resolved = ([EvLog "Not loading any weights"], Ok None) /\
   In (EvOpen arguments_path) t /\
   (fs_config w arguments_path = NoFile -> r = Raise FileNotFoundError))
  /\
  (fs_config w arguments_path = NoFile ->
   (exists e, r = Raise e) /\
   (forall tr cp, resolved = (tr, Ok cp) -> r = Raise FileNotFoundError)).
Proof.
  intros D T H arguments_path resolved. subst arguments_path resolved.
  destruct (main_prefix w cfg t r H) as [[rest Pt] Po].
  pose proof (prepare_resume w cfg dir 0%nat D T) as P. cbv zeta in P.
  assert (forall tr cp,
            run (resolve_weights w (checkpoint cfg) (agent cfg) dir) = (tr, Ok cp) ->
            In (EvOpen (path_join dir "config.yaml")) t /\
            (fs_config w (path_join dir "config.yaml") <> NoFile ->
             In (EvYamlLoad (path_join dir "config.yaml")) t) /\
            (fs_config w (path_join dir "config.yaml") = NoFile ->
             r = Raise FileNotFoundError)) as Main.
  { intros tr cp R. unfold run, trace_of, outcome_of in R.
    destruct (resolve_weights w (checkpoint cfg) (agent cfg) dir 0%nat)
      as [t1 [n1 r1]]. simpl in R. injection R as -> ->.
    rewrite P in Pt, Po. unfold trace_of at 1 in Pt. simpl in Pt.
    subst t. repeat split.
    - destruct (reconcile_opens w cfg dir cp (capture_args cfg) n1)
        as [rs [E _]].
      rewrite E. right. apply in_or_app. left. apply in_or_app. right.
      now left.
    - intros N. right. apply in_or_app. left. apply in_or_app. right.
      now apply reconcile_parses.
    - intros N. apply Po.
      now rewrite (reconcile_no_file w cfg dir cp (capture_args cfg) n1 N). }
  split; [|split].
  - intros tr cp R. destruct (Main tr cp R) as (? & ? & _). auto.
  - intros O. pose proof (opt_out_resolves w cfg dir O) as R.
    destruct (Main _ _ R) as (? & _ & ?). auto.
  - intros N. split.
    + destruct (resolve_weights w (checkpoint cfg) (agent cfg) dir 0%nat)
        as [t1 [n1 [cp|e]]] eqn:R.
      * exists FileNotFoundError. apply Po. rewrite P.
        now rewrite (reconcile_no_file w cfg dir cp (capture_args cfg) n1 N).
      * exists e. apply Po. now rewrite P.
    + intros tr cp R. destruct (Main tr cp R) as (_ & _ & F). auto.
Qed.

(** ** Worked runs *)

(** The steps 3, 7 and 12 of the specification's example. *)
Example resolve_last :
  run (resolve_weights machine (VStr "last") VNone "run")
  = ([EvIsDir "run/checkpoints"; EvListDir (Some "run/checkpoints")],
     Ok (Some "run/checkpoints/step_12")).
Proof. reflexivity. Qed.

Example resolve_first :
  run (resolve_weights machine (VStr "first") VNone "run")
  = ([EvIsDir "run/checkpoints"; EvListDir (Some "run/checkpoints")],
     Ok (Some "run/checkpoints/step_3")).
Proof. reflexivity. Qed.

Example resolve_7 :
  run (resolve_weights machine (VInt 7) VNone "run")
  = ([EvIsDir "run/checkpoints"; EvListDir (Some "run/checkpoints")],
     Ok (Some "run/checkpoints/step_7")).
Proof. reflexivity. Qed.

Example resolve_99 :
  run (resolve_weights machine (VInt 99) VNone "run")
  = ([EvIsDir "run/checkpoints"; EvListDir (Some "run/checkpoints");
      EvLogError "Checkpoint 99 not found in run/checkpoints"],
     Ok None).
Proof. reflexivity. Qed.

Example resolve_none :
  run (resolve_weights machine (VStr "none") VNone "run")
  = ([EvLog "Not loading any weights"], Ok None).
Proof. reflexivity. Qed.

(** A resumed run loads the weights of the last step into the persisted
    agent. *)
Example resumed_run_loads_last :
  In (EvAgentLoad 2%nat "run/checkpoints/step_12")
     (fst (run (main machine (resuming (VStr "last") "run"))))
  /\ In (EvInstantiate 2%nat (VDict [("_target_", VStr "tonic.torch.agents.PPO")]))
        (fst (run (main machine (resuming (VStr "last") "run"))))
  /\ snd (run (main machine (resuming (VStr "last") "run"))) = Ok tt.
Proof. vm_compute. intuition auto. Qed.

(** ** The properties on the worked runs *)

Lemma checkpoint_selection_policy_witness :
  (checkpoint_output_dir (resuming (VStr "last") "run") = Some "run" /\
   fs_dirs machine (path_join "run" "checkpoints")
   = Some ["step_3"; "step_12.pt"; "notes.txt"; "step_7"] /\
   scan ["step_3"; "step_12.pt"; "notes.txt"; "step_7"] [] = Ok [3; 12; 7])
  /\
  exists m, In m [3; 12; 7] /\ (forall x, In x [3; 12; 7] -> x <= m) /\
    run (resolve_weights machine (VStr "last") VNone "run")
    = ([EvIsDir "run/checkpoints"; EvListDir (Some "run/checkpoints")],
       Ok (Some (path_join "run/checkpoints" ("step_" ++ str_int m)))).
Proof.
  split; [repeat split|].
  refine (proj1 (checkpoint_selection_policy machine
                   (resuming (VStr "last") "run") "run"
                   ["step_3"; "step_12.pt"; "notes.txt"; "step_7"] [3; 12; 7]
                   eq_refl eq_refl eq_refl eq_refl eq_refl eq_refl _) eq_refl).
  discriminate.
Defined.

Lemma opt_out_rule_witness :
  (checkpoint_output_dir resuming_with_agent = Some "run" /\
   truthy_opt (Some "run") = true /\
   agent resuming_with_agent <> VNone)
  /\
  run (resolve_weights machine (checkpoint resuming_with_agent)
         (agent resuming_with_agent) "run")
  = ([EvLog "Not loading any weights"], Ok None).
Proof.
  split; [repeat split; discriminate|].
  refine (proj1 (opt_out_rule machine resuming_with_agent "run"
                   eq_refl eq_refl (or_intror _))).
  discriminate.
Defined.

(** C3 on the machine: the checkpoints directory of [lost] does not exist
    and the selector is ['last'].  The error is logged, then the working
    directory is listed in place of the missing one; its entry [step_5]
    gives an id, and joining the path [None] with [step_5] raises, which
    ends the run. *)
Theorem missing_checkpoints_directory_run :
  fs_dirs machine (path_join "lost" "checkpoints") = None /\
  run (main machine (resuming (VStr "last") "lost"))
  = ([EvLog "Loading experiment from lost";
      EvIsDir "lost/checkpoints";
      EvLogError "lost/checkpoints is not a directory";
      EvListDir None],
     Raise TypeError).
Proof. split; reflexivity. Qed.

(** C4 fails as stated: the entry [step_final] is not passed over.  The
    scan raises, and with it the run that resumes from [old]. *)
Lemma malformed_entry_raises :
  is_checkpoint_entry "step_final" = true /\
  entry_id "step_final" = None /\
  scan ["step_3"; "step_final"; "step_7"] [] <> Ok [3; 7] /\
  scan ["step_3"; "step_final"; "step_7"] [] = Raise ValueError /\
  run (main machine (resuming (VStr "last") "old"))
  = ([EvLog "Loading experiment from old";
      EvIsDir "old/checkpoints";
      EvListDir (Some "old/checkpoints")],
     Raise ValueError).
Proof. repeat split; try reflexivity. discriminate. Qed.

Lemma scan_entries_witness :
  Forall (fun f => is_checkpoint_entry f = true -> entry_id f <> None)
         ["step_3"; "step_12.pt"; "notes.txt"; "step_7"]
  /\
  (exists ids,
     scan ["step_3"; "step_12.pt"; "notes.txt"; "step_7"] [] = Ok ids /\
     forall z, In z ids <->
       exists f, In f ["step_3"; "step_12.pt"; "notes.txt"; "step_7"] /\
                 is_checkpoint_entry f = true /\ entry_id f = Some z)
  /\
  Exists (fun f => is_checkpoint_entry f = true /\
                   is_ascii (id_segment f) = true /\
                   int_of_str (id_segment f) = None)
         ["step_3"; "step_final"; "step_7"]
  /\
  fs_dirs machine (path_join "old" "checkpoints")
  = Some ["step_3"; "step_final"; "step_7"]
  /\
  scan ["step_3"; "step_final"; "step_7"] [] = Raise ValueError
  /\
  run (main machine (resuming (VStr "last") "old"))
  = ([EvLog "Loading experiment from old";
      EvIsDir "old/checkpoints";
      EvListDir (Some "old/checkpoints")],
     Raise ValueError).
Proof.
  assert (Forall (fun f => is_checkpoint_entry f = true -> entry_id f <> None)
                 ["step_3"; "step_12.pt"; "notes.txt"; "step_7"]) as W.
  { repeat constructor; discriminate. }
  assert (Exists (fun f => is_checkpoint_entry f = true /\
                           is_ascii (id_segment f) = true /\
                           int_of_str (id_segment f) = None)
                 ["step_3"; "step_final"; "step_7"]) as X.
  { apply Exists_cons_tl. apply Exists_cons_hd. repeat split. }
  split; [exact W|]. split; [|split; [exact X|split; [reflexivity|]]].
  - exact (proj1 (scan_entries machine (resuming (VStr "last") "old") "old" _) W).
  - destruct (proj2 (scan_entries machine (resuming (VStr "last") "old") "old" _) X)
      as [S R].
    split; [exact S|].
    exact (proj2 (R eq_refl eq_refl eq_refl eq_refl eq_refl)).
Defined.

Lemma configuration_merge_witness :
  (checkpoint_output_dir (resuming (VStr "last") "run") = Some "run" /\
   truthy_opt (Some "run") = true /\
   snd (run (prepare machine (resuming (VStr "last") "run")))
   = Ok {| effective :=
             {| header := VStr "import torch";
                agent := VDict [("_target_", VStr "tonic.torch.agents.PPO")];
                environment := VDict [("_target_", VStr "tonic.environments.Gym");
                                      ("name", VStr "Hopper-v3")];
                test_environment := VNone;
                trainer := VDict [("_target_", VStr "tonic.Trainer");
                                  ("steps", VInt 500000)];
                before_training := VStr "print('start')";
                after_training := VNone;
                parallel := 4;
                sequential := 2;
                seed := 5;
                checkpoint := VStr "last";
                checkpoint_output_dir := Some "run" |};
           checkpoint_path := Some "run/checkpoints/step_12";
           args := capture_args (resuming (VStr "last") "run") |})
  /\
  exists config,
    fs_config machine (path_join "run" "config.yaml") = Parsed (VDict config) /\
    lookup "agent" config
    = Some (VDict [("_target_", VStr "tonic.torch.agents.PPO")]).
Proof.
  split; [repeat split|].
  destruct (proj1 (proj2 (configuration_merge machine
                            (resuming (VStr "last") "run")))
              "run" _ _ eq_refl eq_refl eq_refl)
    as (config & L & _ & A & _).
  exists config. split; [exact L|exact A].
Defined.

Lemma test_environment_construction_witness :
  run (main machine (resuming (VStr "last") "run"))
  = (fst (run (main machine (resuming (VStr "last") "run"))), Ok tt)
  /\
  exists d,
    In (EvDistribute 1%nat d None)
       (fst (run (main machine (resuming (VStr "last") "run")))) /\
    In (EvEnvInitialize 1%nat (5 + 10000))
       (fst (run (main machine (resuming (VStr "last") "run")))).
Proof.
  split; [reflexivity|].
  exact (proj2 (proj2 (test_environment_construction machine
                         (resuming (VStr "last") "run") _ (Ok tt) eq_refl))
           eq_refl).
Defined.

Lemma pipeline_order_witness :
  run (main machine starting)
  = ([ EvExec "import torch";
       EvDistribute 0%nat (environment starting) (Some (4, 2));
       EvEnvInitialize 0%nat 7;
       EvDistribute 1%nat (environment starting) None;
       EvEnvInitialize 1%nat 10007;
       EvInstantiate 2%nat (agent starting);
       EvAgentInitialize 2%nat (ObservationSpace 0%nat) (ActionSpace 0%nat) 7;
       EvLoggerInitialize "outputs/2024-01-01" "tonic/hydra/train.py"
         (capture_args starting);
       EvInstantiate 3%nat (trainer starting);
       EvTrainerInitialize 3%nat 2%nat 0%nat 1%nat;
       EvTrainerRun 3%nat;
       EvExec "print('done')" ],
     Ok tt)
  /\
  exists tp s,
    run (prepare machine starting) = (tp, Ok s) /\
    Forall (fun e => is_step e = false) tp.
Proof.
  split; [reflexivity|].
  destruct (pipeline_order machine starting _ eq_refl) as (tp & s & P & Q & _).
  exists tp, s. split; [exact P|exact Q].
Defined.

(** C8 fails as stated: in the run that resumes from [run] the effective
    agent is the persisted descriptor, and the mapping given to the logger
    has [None] for it. *)
Lemma logged_arguments_are_not_effective :
  exists s config,
    snd (run (prepare machine (resuming (VStr "last") "run"))) = Ok s /\
    In (EvLoggerInitialize (output_dir machine) (script_file machine) config)
       (fst (run (main machine (resuming (VStr "last") "run")))) /\
    agent (effective s) = VDict [("_target_", VStr "tonic.torch.agents.PPO")] /\
    lookup "agent" config = Some VNone /\
    lookup "agent" config <> Some (agent (effective s)).
Proof.
  eexists. eexists. split; [reflexivity|]. split.
  - vm_compute. repeat (first [left; reflexivity | right]).
  - repeat split. discriminate.
Qed.

Lemma logger_arguments_witness :
  run (main machine (resuming (VStr "last") "run"))
  = (fst (run (main machine (resuming (VStr "last") "run"))), Ok tt)
  /\
  In (EvLoggerInitialize (output_dir machine) (script_file machine)
        (capture_args (resuming (VStr "last") "run")))
     (fst (run (main machine (resuming (VStr "last") "run")))).
Proof.
  split; [reflexivity|].
  exact (proj2 (logger_arguments machine (resuming (VStr "last") "run")
                  _ (Ok tt) eq_refl) eq_refl).
Defined.

Lemma fresh_run_isolation_witness :
  (truthy_opt (checkpoint_output_dir starting) = false /\
   run (main machine starting)
   = (fst (run (main machine starting)), Ok tt))
  /\
  (forall e, In e (fst (run (main machine starting))) -> is_filesystem e = false)
  /\
  (forall e, In e (fst (run (main machine starting))) -> is_agent_load e = false)
  /\
  List.length (filter is_trainer_run (fst (run (main machine starting)))) = 1%nat.
Proof.
  split; [split; reflexivity|].
  destruct (fresh_run_isolation machine starting _ (Ok tt) eq_refl eq_refl)
    as (_ & F & L & _ & O & _).
  split; [exact F|]. split; [exact L|]. exact (O eq_refl).
Defined.

(** The run that resumes from [lost] with the selector ['none']: the
    directory has no [config.yaml], and the run ends with the error of
    [open]. *)
Lemma persisted_configuration_is_read_witness :
  (checkpoint_output_dir (resuming (VStr "none") "lost") = Some "lost" /\
   truthy_opt (Some "lost") = true /\
   fs_config machine (path_join "lost" "config.yaml") = NoFile /\
   run (main machine (resuming (VStr "none") "lost"))
   = ([EvLog "Loading experiment from lost";
       EvLog "Not loading any weights";
       EvOpen "lost/config.yaml"],
      Raise FileNotFoundError))
  /\
  In (EvOpen (path_join "lost" "config.yaml"))
     [EvLog "Loading experiment from lost";
      EvLog "Not loading any weights";
      EvOpen "lost/config.yaml"].
Proof.
  split; [repeat split|].
  exact (proj1 (proj2 (proj1 (proj2
           (persisted_configuration_is_read machine
              (resuming (VStr "none") "lost") "lost" _ _
              eq_refl eq_refl eq_refl))
           (or_introl eq_refl)))).
Defined.

(** * Further properties of [main] *)

(** ** Integers and their text *)

Lemma parse_digits_digit acc prev c k s :
  digit_val c = Some k ->
  parse_digits acc prev (String c s) = parse_digits (acc * 10 + k) true s.
Proof. intros H. cbn [parse_digits]. now rewrite H. Qed.

(** Reads the digit in front of the text of the goal. *)
Ltac read_digit :=
  match goal with
  | |- parse_digits _ _ (String ?c _) = _ =>
      let k := eval vm_compute in (digit_val c) in
      match k with
      | Some ?v => rewrite (parse_digits_digit _ _ c v _ eq_refl)
      end
  end.

Lemma parse_digits_acc d acc :
  parse_digits (Zpos acc) true (NilEmpty.string_of_uint d)
  = Some (Zpos (Pos.of_uint_acc d acc)).
Proof.
  revert acc.
  induction d; intros acc; cbn [NilEmpty.string_of_uint Pos.of_uint_acc];
    [reflexivity|..];
    read_digit; rewrite <- IHd; f_equal; lia.
Qed.

Lemma parse_digits_uint d prev :
  d <> Decimal.Nil ->
  parse_digits 0 prev (NilEmpty.string_of_uint d) = Some (Z.of_N (Pos.of_uint d)).
Proof.
  revert prev.
  induction d; intros prev N; [congruence|..];
    cbn [NilEmpty.string_of_uint Pos.of_uint];
    read_digit; try apply parse_digits_acc.
  destruct d; try (apply IHd; discriminate). reflexivity.
Qed.

(** The text of an integer has no dot, no space in front and no sign but
    its own. *)
Lemma before_dot_uint d tail :
  before_dot (NilEmpty.string_of_uint d ++ tail)
  = NilEmpty.string_of_uint d ++ before_dot tail.
Proof.
  induction d; cbn [NilEmpty.string_of_uint append before_dot];
    [reflexivity|..]; cbn; now rewrite IHd.
Qed.

Lemma str_int_cases z :
  (z = 0 /\ str_int z = "0") \/
  (exists p, z = Zpos p /\ Pos.to_uint p <> Decimal.Nil /\
             str_int z = NilEmpty.string_of_uint (Pos.to_uint p)) \/
  (exists p, z = Zneg p /\ Pos.to_uint p <> Decimal.Nil /\
             str_int z = String "-" (NilEmpty.string_of_uint (Pos.to_uint p))).
Proof.
  destruct z as [|p|p]; [now left|right; left|right; right]; exists p;
    pose proof (DecimalPos.Unsigned.to_uint_nonnil p) as N;
    (split; [reflexivity|split; [exact N|]]);
    unfold str_int, NilZero.string_of_int, NilZero.string_of_uint; cbn [Z.to_int];
    now destruct (Pos.to_uint p).
Qed.

(** [int(str(z)) == z] *)
Lemma int_of_str_str_int z : int_of_str (str_int z) = Some z.
Proof.
  destruct (str_int_cases z) as [[-> ->]|[(p & -> & N & ->)|(p & -> & N & ->)]].
  - reflexivity.
  - pose proof (parse_digits_uint _ false N) as P.
    rewrite DecimalPos.Unsigned.of_to in P. unfold int_of_str.
    destruct (Pos.to_uint p); try congruence; exact P.
  - pose proof (parse_digits_uint _ false N) as P.
    rewrite DecimalPos.Unsigned.of_to in P. unfold int_of_str.
    cbn [lstrip is_space]. cbn. rewrite P. reflexivity.
Qed.

Lemma append_empty s : (s ++ "")%string = s.
Proof. induction s as [|c s IH]; [reflexivity|]. cbn. now rewrite IH. Qed.

Lemma before_dot_str_int z tail :
  before_dot (str_int z ++ tail) = str_int z ++ before_dot tail.
Proof.
  destruct (str_int_cases z) as [[-> ->]|[(p & -> & N & ->)|(p & -> & N & ->)]].
  - reflexivity.
  - apply before_dot_uint.
  - cbn [append before_dot]. cbn. now rewrite before_dot_uint.
Qed.

(** X1. The name the resolver builds for an id, [step_<id>] (lines 76, 80
    and 85), is read back by the scan (lines 68-70) as an entry with that
    very id, with or without an extension: building a step name and
    scanning it is a round trip. *)
Theorem step_name_round_trip (z : Z) (ext : string) :
  is_checkpoint_entry ("step_" ++ str_int z) = true /\
  entry_id ("step_" ++ str_int z) = Some z /\
  is_checkpoint_entry ("step_" ++ str_int z ++ "." ++ ext) = true /\
  entry_id ("step_" ++ str_int z ++ "." ++ ext) = Some z /\
  scan ["step_" ++ str_int z; "step_" ++ str_int z ++ "." ++ ext] [] = Ok [z; z].
Proof.
  assert (entry_id ("step_" ++ str_int z) = Some z) as E1.
  { unfold entry_id. cbn [append before_dot]. cbn.
    rewrite <- (append_empty (str_int z)) at 1.
    rewrite before_dot_str_int. cbn [before_dot]. rewrite append_empty.
    apply int_of_str_str_int. }
  assert (entry_id ("step_" ++ str_int z ++ "." ++ ext) = Some z) as E2.
  { unfold entry_id. cbn [append before_dot]. cbn.
    rewrite before_dot_str_int. cbn. rewrite append_empty.
    apply int_of_str_str_int. }
  repeat split; try assumption; try reflexivity.
  rewrite !scan_cons, E1, E2. reflexivity.
Qed.

(** ** The resolver at its edges *)

Lemma scan_no_entries files :
  Forall (fun f => is_checkpoint_entry f = false) files ->
  scan files [] = Ok [].
Proof.
  induction 1 as [|f files F _ IH]; [reflexivity|].
  now rewrite scan_cons, F.
Qed.

(** X2. An existing checkpoints directory without any entry named
    [step_...] (lines 66-72, 89-91): whatever the selector, even one that
    is no number, the resolver raises nothing; it logs "No checkpoint
    found" and resolves no checkpoint. *)
Theorem directory_without_steps
  (w : world) (selector : value) (dir : string) (files : list string) :
  eq_str selector "none" = false ->
  fs_dirs w (path_join dir "checkpoints") = Some files ->
  Forall (fun f => is_checkpoint_entry f = false) files ->
  run (resolve_weights w selector VNone dir)
  = ([EvIsDir (path_join dir "checkpoints");
      EvListDir (Some (path_join dir "checkpoints"));
      EvLogError ("No checkpoint found in " ++ path_join dir "checkpoints")],
     Ok None).
Proof.
  intros N D F. unfold run, resolve_weights. rewrite N. cbn [orb is_not_none].
  rewrite (select_checkpoint_present w _ _ _ _ D), (scan_no_entries _ F).
  reflexivity.
Qed.

Lemma choose_checkpoint_text s n cp ids :
  int_of_str s = Some n ->
  eq_str (VStr s) "last" = false ->
  eq_str (VStr s) "first" = false ->
  choose_checkpoint (VStr s) cp ids = choose_checkpoint (VInt n) cp ids.
Proof.
  intros P L F. unfold choose_checkpoint. rewrite L, F.
  cbn [eq_str int]. now rewrite P.
Qed.

(** X3. A selector given as text that is none of ['last'], ['first'],
    ['none'] goes through [int] (line 83): when the text is a number the
    resolver does exactly what it does for that integer, in every
    filesystem. *)
Theorem text_selector_is_its_number
  (w : world) (s : string) (n : Z) (agent : value) (dir : string) :
  int_of_str s = Some n ->
  eq_str (VStr s) "last" = false ->
  eq_str (VStr s) "first" = false ->
  eq_str (VStr s) "none" = false ->
  run (resolve_weights w (VStr s) agent dir)
  = run (resolve_weights w (VInt n) agent dir).
Proof.
  intros P L F N. unfold run, resolve_weights. rewrite N. cbn [eq_str orb].
  destruct (is_not_none agent); [reflexivity|].
  destruct (fs_dirs w (path_join dir "checkpoints")) as [files|] eqn:D.
  - rewrite !(select_checkpoint_present w _ _ _ _ D).
    destruct (scan files []); [|reflexivity].
    now rewrite (choose_checkpoint_text s n _ _ P L F).
  - rewrite !(select_checkpoint_missing w _ _ _ D). cbv zeta.
    destruct (scan (fs_cwd w) []); [|reflexivity].
    now rewrite (choose_checkpoint_text s n _ _ P L F).
Qed.


(** ** The order of the listing *)

Section Listing_order.

Import Permutation.

Lemma scan_raises_value_error files e :
  scan files [] = Raise e -> e = ValueError.
Proof.
  induction files as [|f files IH]; [discriminate|].
  rewrite scan_cons. destruct (is_checkpoint_entry f); [|exact IH].
  destruct (entry_id f); [|congruence].
  destruct (scan files []); [discriminate|]. intros H. apply IH. congruence.
Qed.

Lemma same_scan_refl a : same_scan a a.
Proof. destruct a; simpl; auto. Qed.

Lemma same_scan_trans a b c : same_scan a b -> same_scan b c -> same_scan a c.
Proof.
  destruct a, b, c; simpl; try tauto. apply Permutation_trans.
Qed.

Lemma scan_permutation files files' :
  Permutation files files' -> same_scan (scan files []) (scan files' []).
Proof.
  induction 1 as [|f l l' _ IH|f g l|l l' l'' _ IH1 _ IH2].
  - apply same_scan_refl.
  - rewrite !scan_cons. destruct (is_checkpoint_entry f); [|exact IH].
    destruct (entry_id f); [|exact I].
    destruct (scan l []), (scan l' []); simpl in *; auto.
  - rewrite !scan_cons.
    destruct (is_checkpoint_entry f), (is_checkpoint_entry g),
      (entry_id f), (entry_id g), (scan l []); simpl; auto.
    apply perm_swap.
  - exact (same_scan_trans _ _ _ IH1 IH2).
Qed.

Lemma max_permutation a b : Permutation a b -> Py.max a = Py.max b.
Proof.
  intros P. destruct a as [|x a].
  - now rewrite (Permutation_nil P).
  - assert (b <> []) as Nb.
    { intros ->. apply Permutation_sym, Permutation_nil in P. discriminate. }
    destruct (max_spec (x :: a)) as (m & -> & I & U); [discriminate|].
    destruct (max_spec b Nb) as (m' & -> & I' & U').
    f_equal. apply Z.le_antisymm.
    + apply U'. now apply (Permutation_in _ P).
    + apply U. now apply (Permutation_in _ (Permutation_sym P)).
Qed.

Lemma min_permutation a b : Permutation a b -> Py.min a = Py.min b.
Proof.
  intros P. destruct a as [|x a].
  - now rewrite (Permutation_nil P).
  - assert (b <> []) as Nb.
    { intros ->. apply Permutation_sym, Permutation_nil in P. discriminate. }
    destruct (min_spec (x :: a)) as (m & -> & I & U); [discriminate|].
    destruct (min_spec b Nb) as (m' & -> & I' & U').
    f_equal. apply Z.le_antisymm.
    + apply U. now apply (Permutation_in _ (Permutation_sym P)).
    + apply U'. now apply (Permutation_in _ P).
Qed.

Lemma mem_permutation z a b : Permutation a b -> mem z a = mem z b.
Proof.
  intros P. destruct (mem z a) eqn:A, (mem z b) eqn:B; try reflexivity.
  - apply mem_In in A. apply (Permutation_in _ P), mem_In in A. congruence.
  - apply mem_In in B.
    apply (Permutation_in _ (Permutation_sym P)), mem_In in B. congruence.
Qed.

Lemma choose_checkpoint_permutation sel cp a b :
  Permutation a b -> choose_checkpoint sel cp a = choose_checkpoint sel cp b.
Proof.
  intros P. unfold choose_checkpoint.
  rewrite (max_permutation _ _ P), (min_permutation _ _ P).
  destruct a as [|x a], b as [|y b]; try reflexivity.
  - apply Permutation_nil in P. discriminate.
  - apply Permutation_sym, Permutation_nil in P. discriminate.
  - destruct (eq_str sel "last"); [reflexivity|].
    destruct (eq_str sel "first"); [reflexivity|].
    unfold bind, lift. destruct (int sel) as [z|e]; [|reflexivity].
    now rewrite (mem_permutation z _ _ P).
Qed.

(** X5. [os.listdir] returns the entries in no particular order, and the
    resolver does not depend on it: on two machines whose checkpoints
    directories hold the same entries in different orders it logs the same
    lines and resolves the same checkpoint, or raises in both. *)
Theorem listing_order_is_irrelevant
  (w w' : world) (selector agent : value) (dir : string)
  (files files' : list string) :
  fs_dirs w (path_join dir "checkpoints") = Some files ->
  fs_dirs w' (path_join dir "checkpoints") = Some files' ->
  Permutation files files' ->
  run (resolve_weights w selector agent dir)
  = run (resolve_weights w' selector agent dir).
Proof.
  intros D D' P. unfold run, resolve_weights.
  destruct (eq_str selector "none" || is_not_none agent); [reflexivity|].
  rewrite (select_checkpoint_present w _ _ _ _ D),
          (select_checkpoint_present w' _ _ _ _ D').
  pose proof (scan_permutation _ _ P) as S.
  destruct (scan files []) as [ids|e] eqn:E, (scan files' []) as [ids'|e'] eqn:E';
    simpl in S; try contradiction.
  - now rewrite (choose_checkpoint_permutation _ _ _ _ S).
  - apply scan_raises_value_error in E, E'. now subst.
Qed.

End Listing_order.

(** ** From the resolver to the agent *)

Lemma path_join_step_nonempty a z :
  truthy_opt (Some (path_join a ("step_" ++ str_int z))) = true.
Proof.
  unfold path_join. simpl.
  destruct ((a =? "")%string || ends_with_sep a); destruct a; reflexivity.
Qed.

Lemma choose_checkpoint_inv sel cp ids n t k p :
  choose_checkpoint sel cp ids n = (t, (k, Ok (Some p))) ->
  exists c id,
    cp = Some c /\ In id ids /\
    p = path_join c ("step_" ++ str_int id) /\ t = [] /\ k = n.
Proof.
  assert (forall id, In id ids ->
            step_path cp id n = (t, (k, Ok (Some p))) ->
            exists c id,
              cp = Some c /\ In id ids /\
              p = path_join c ("step_" ++ str_int id) /\ t = [] /\ k = n) as S.
  { intros id I. unfold step_path, bind, lift, ret, os_path_join.
    destruct cp as [c|]; [|discriminate]. intros H. inversion H.
    exists c, id. repeat split; assumption. }
  unfold choose_checkpoint. destruct ids as [|i ids]; [discriminate|].
  destruct (eq_str sel "last").
  { destruct (max_spec (i :: ids)) as (m & -> & I & _); [discriminate|].
    now apply S. }
  destruct (eq_str sel "first").
  { destruct (min_spec (i :: ids)) as (m & -> & I & _); [discriminate|].
    now apply S. }
  unfold bind at 1. unfold lift at 1.
  destruct (int sel) as [z|e]; [|discriminate].
  destruct (mem z (i :: ids)) eqn:Mz.
  - apply mem_In in Mz. intros H. apply (S z Mz).
    destruct (step_path cp z n) as [t2 [k2 r2]]. now inversion H.
  - unfold bind, emit, ret. discriminate.
Qed.

(** What a resolved checkpoint tells. *)
Lemma resolve_weights_inv w sel agent dir n t k p :
  resolve_weights w sel agent dir n = (t, (k, Ok (Some p))) ->
  let checkpoints := path_join dir "checkpoints" in
  exists files ids id,
    fs_dirs w checkpoints = Some files /\
    scan files [] = Ok ids /\
    In id ids /\
    p = path_join checkpoints ("step_" ++ str_int id) /\
    t = [EvIsDir checkpoints; EvListDir (Some checkpoints)] /\
    k = n.
Proof.
  intros H checkpoints. subst checkpoints. unfold resolve_weights in H.
  destruct (eq_str sel "none" || is_not_none agent); [discriminate|].
  destruct (fs_dirs w (path_join dir "checkpoints")) as [files|] eqn:D.
  - rewrite (select_checkpoint_present w _ _ _ _ D) in H.
    destruct (scan files []) as [ids|e] eqn:S; [|discriminate].
    destruct (choose_checkpoint sel (Some (path_join dir "checkpoints")) ids n)
      as [t2 [k2 r2]] eqn:C.
    unfold trace_of in H. simpl in H. injection H as <- <- ->.
    apply choose_checkpoint_inv in C as (c & id & Ec & I & -> & -> & ->).
    injection Ec as <-. exists files, ids, id. repeat split; assumption.
  - rewrite (select_checkpoint_missing w _ _ _ D) in H. cbv zeta in H.
    destruct (scan (fs_cwd w) []) as [ids|e]; [|discriminate].
    destruct (choose_checkpoint sel None ids n) as [t2 [k2 r2]] eqn:C.
    unfold trace_of in H. simpl in H. injection H as _ _ ->.
    apply choose_checkpoint_inv in C as (c & id & Ec & _). discriminate.
Qed.

(** The resolved checkpoint of a preparation is what the resolver returned. *)
Lemma prepare_resolved w cfg n t k s p :
  prepare w cfg n = (t, (k, Ok s)) ->
  checkpoint_path s = Some p ->
  exists dir tr k1,
    checkpoint_output_dir cfg = Some dir /\
    resolve_weights w (checkpoint cfg) (agent cfg) dir n = (tr, (k1, Ok (Some p))).
Proof.
  destruct (truthy_opt (checkpoint_output_dir cfg)) eqn:T.
  - destruct (truthy_opt_some _ T) as [dir [D _]]. rewrite D in T.
    rewrite (prepare_resume w cfg dir n D T). cbv zeta.
    destruct (resolve_weights _ _ _ _ _) as [t1 [n1 [cp|e]]] eqn:Rw;
      [|discriminate].
    destruct (reconcile w cfg dir cp (capture_args cfg) n1)
      as [t2 [k2 r2]] eqn:R.
    unfold trace_of. simpl. intros H. injection H as _ _ ->.
    apply reconcile_inv in R as (c & _ & _ & _ & Cp & _).
    intros E. rewrite Cp in E. subst cp. exists dir, t1, n1.
    split; [exact D|now rewrite <- E].
  - rewrite (prepare_fresh w cfg n T). intros H. injection H as _ _ <-.
    discriminate.
Qed.

(** X6. The resolver never names a step it has not seen: whenever the
    preparation ends with a checkpoint path, the run is a resume run whose
    checkpoints directory exists, its scan succeeded, and the path is
    [<checkpoint_output_dir>/checkpoints/step_<id>] for the id of one of
    its entries.  In particular nothing is ever resolved from a missing
    directory. *)
Theorem resolved_checkpoint_was_scanned
  (w : world) (cfg : TonicTrainConfig) (tp : list event)
  (s : session_inputs) (p : string) :
  run (prepare w cfg) = (tp, Ok s) ->
  checkpoint_path s = Some p ->
  exists dir files ids id,
    checkpoint_output_dir cfg = Some dir /\
    fs_dirs w (path_join dir "checkpoints") = Some files /\
    scan files [] = Ok ids /\
    In id ids /\
    p = path_join (path_join dir "checkpoints") ("step_" ++ str_int id).
Proof.
  unfold run, trace_of, outcome_of. intros H Cp.
  destruct (prepare w cfg 0%nat) as [t [k r]] eqn:P. simpl in H.
  injection H as -> ->.
  destruct (prepare_resolved _ _ _ _ _ _ _ P Cp) as (dir & tr & k1 & D & R).
  apply resolve_weights_inv in R as (files & ids & id & F & S & I & E & _).
  exists dir, files, ids, id. repeat split; assumption.
Qed.

(** A resolved path is never empty, so the test of line 130 lets it pass. *)
Lemma prepare_path_truthy w cfg tp s p :
  run (prepare w cfg) = (tp, Ok s) ->
  checkpoint_path s = Some p ->
  truthy_opt (Some p) = true.
Proof.
  intros P Cp. unfold run, trace_of, outcome_of in P.
  destruct (prepare w cfg 0%nat) as [t0 [k0 r0]] eqn:Pr. simpl in P.
  injection P as -> ->.
  destruct (prepare_resolved _ _ _ _ _ _ _ Pr Cp) as (dir & tr & k1 & D & R).
  apply resolve_weights_inv in R as (_ & _ & id & _ & _ & _ & -> & _).
  apply path_join_step_nonempty.
Qed.

Lemma pipeline_loads_once w s n p :
  checkpoint_path s = Some p ->
  truthy_opt (Some p) = true ->
  filter is_agent_load (pipeline w s n) = [EvAgentLoad (S (S n)) p].
Proof.
  intros Cp T.
  assert (forall code, filter is_agent_load (snippet_step code) = []) as S.
  { intros code. unfold snippet_step.
    destruct (truthy code); [|reflexivity]. now destruct code. }
  unfold pipeline, load_step. rewrite !filter_app, !S, Cp, T. reflexivity.
Qed.

(** X7. A resolved checkpoint is never dropped on the way to the agent
    (lines 130-131): in a run that returns, when the preparation resolved
    the path [p], [agent.load] is called exactly once, on the agent of the
    run and with [p]; when it resolved none, [agent.load] is not called. *)
Theorem resolved_checkpoint_is_loaded
  (w : world) (cfg : TonicTrainConfig) (t tp : list event) (s : session_inputs) :
  run (main w cfg) = (t, Ok tt) ->
  run (prepare w cfg) = (tp, Ok s) ->
  filter is_agent_load t =
  match checkpoint_path s with
  | Some p => [EvAgentLoad 2%nat p]
  | None => []
  end.
Proof.
  intros H P.
  destruct (main_inv w cfg t (Ok tt) H) as [[x [_ X]]|[tp' [s' [P' [-> O]]]]];
    [discriminate|].
  rewrite P in P'. injection P' as <- <-.
  symmetry in O. rewrite (run_session_ok w s 0%nat O), filter_app.
  assert (filter is_agent_load tp = []) as ->.
  { pose proof (prepare_emits w cfg 0%nat) as Q. unfold run in P.
    injection P as Pt _. rewrite Pt in Q. clear -Q.
    induction Q as [|e l E _ IH]; [reflexivity|]. simpl.
    rewrite IH. now destruct e. }
  destruct (checkpoint_path s) as [p|] eqn:Cp.
  - apply pipeline_loads_once; [assumption|].
    exact (prepare_path_truthy w cfg tp s p P Cp).
  - pose proof (pipeline_no_load w s 0%nat) as L. rewrite Cp in L.
    specialize (L eq_refl). simpl. clear -L.
    induction L as [|e l E _ IH]; [reflexivity|]. simpl. now rewrite E.
Qed.

(** ** Errors before the session *)

Lemma resolve_weights_scans_and_logs w checkpoint agent dir :
  emits (fun e => is_log e || is_scan e = true)
        (resolve_weights w checkpoint agent dir).
Proof.
  unfold resolve_weights, select_checkpoint, choose_checkpoint, step_path,
    isdir, listdir.
  walk_run.
Qed.

(** X8. An error of the resolver ends the run before anything else is
    touched (lines 66-91 precede lines 94-95): when the resolver raises, the
    run raises the same error right after it, the resolver has only logged
    and looked into directories, [config.yaml] is never opened and no step
    of the session takes place. *)
Theorem resolver_error_ends_the_run
  (w : world) (cfg : TonicTrainConfig) (dir : string)
  (tr : list event) (e : exn) :
  checkpoint_output_dir cfg = Some dir ->
  truthy_opt (Some dir) = true ->
  run (resolve_weights w (checkpoint cfg) (agent cfg) dir) = (tr, Raise e) ->
  run (main w cfg) = (EvLog ("Loading experiment from " ++ dir) :: tr, Raise e)
  /\ Forall (fun ev => is_log ev || is_scan ev = true) tr.
Proof.
  intros D T R. unfold run, trace_of, outcome_of in R.
  pose proof (resolve_weights_scans_and_logs w (checkpoint cfg) (agent cfg) dir 0%nat)
    as Q.
  pose proof (prepare_resume w cfg dir 0%nat D T) as P. cbv zeta in P.
  destruct (resolve_weights w (checkpoint cfg) (agent cfg) dir 0%nat)
    as [t1 [n1 r1]]. simpl in R. injection R as -> ->.
  split; [|exact Q]. exact (main_of_prepare_raise w cfg _ _ _ P).
Qed.

Lemma or_attr_missing current config name n :
  available current (lookup name config) = false ->
  or_attr current config name n = ([], (n, Raise AttributeError)).
Proof.
  unfold or_attr, available. destruct (truthy current); [discriminate|].
  now destruct (lookup name config).
Qed.

Lemma load_config_unparseable w dir n :
  fs_config w (path_join dir "config.yaml") = Unparseable ->
  load_config w dir n =
  ([EvOpen (path_join dir "config.yaml"); EvYamlLoad (path_join dir "config.yaml")],
   (n, Raise YAMLError)).
Proof.
  intros H. unfold load_config, bind, emit, raise. simpl. now rewrite H.
Qed.

Lemma load_config_not_a_mapping w dir n v :
  fs_config w (path_join dir "config.yaml") = Parsed v ->
  (forall d, v <> VDict d) ->
  load_config w dir n =
  ([EvOpen (path_join dir "config.yaml"); EvYamlLoad (path_join dir "config.yaml")],
   (n, Raise TypeError)).
Proof.
  intros H N. unfold load_config, bind, emit, raise. simpl. rewrite H.
  destruct v; try reflexivity. now destruct (N d).
Qed.

(** How the reconciliation fails. *)
Lemma reconcile_errors w cfg dir cp a n :
  let arguments_path := path_join dir "config.yaml" in
  let read := [EvOpen arguments_path; EvYamlLoad arguments_path] in
  (fs_config w arguments_path = Unparseable ->
   reconcile w cfg dir cp a n = (read, (n, Raise YAMLError)))
  /\
  (forall v, fs_config w arguments_path = Parsed v ->
     (forall d, v <> VDict d) ->
     reconcile w cfg dir cp a n = (read, (n, Raise TypeError)))
  /\
  (forall config, fs_config w arguments_path = Parsed (VDict config) ->
     all_available cfg config = false ->
     reconcile w cfg dir cp a n = (read, (n, Raise AttributeError))).
Proof.
  intros arguments_path read. subst arguments_path read. repeat split.
  - intros U. unfold reconcile.
    now rewrite (bind_raise _ _ _ _ _ _ (load_config_unparseable w dir n U)).
  - intros v L N. unfold reconcile.
    now rewrite (bind_raise _ _ _ _ _ _ (load_config_not_a_mapping w dir n v L N)).
  - intros config L A. unfold reconcile, all_available in *.
    rewrite (bind_ok _ _ _ _ _ _ (load_config_parsed w dir n config L)).
    repeat match type of A with
      | context [available ?c (lookup ?k config)] =>
          let E := fresh "E" in
          destruct (available c (lookup k config)) eqn:E;
          [ let v := fresh "v" in let F := fresh "F" in
            destruct (or_attr_available _ _ _ n E) as [v F];
            rewrite (bind_ok _ _ _ _ _ _ F); unfold trace_of; cbn [fst];
            cbn [andb] in A
          | rewrite (bind_raise _ _ _ _ _ _ (or_attr_missing _ _ _ n E));
            reflexivity ]
      end.
    discriminate.
Qed.

(** X9. A persisted configuration that cannot be used ends a resume run
    before the session starts, with the error of the step that found out
    (lines 95-103): [YAMLError] when the file does not parse, [TypeError]
    when it parses to something that is no mapping, [AttributeError] when
    the mapping lacks a field that the current specification leaves empty.
    In each case the file has been opened and parsed and nothing has been
    built. *)
Theorem configuration_errors_are_fatal
  (w : world) (cfg : TonicTrainConfig) (dir : string)
  (tr : list event) (cp : option string) :
  checkpoint_output_dir cfg = Some dir ->
  truthy_opt (Some dir) = true ->
  run (resolve_weights w (checkpoint cfg) (agent cfg) dir) = (tr, Ok cp) ->
  let arguments_path := path_join dir "config.yaml" in
  let read :=
    (EvLog ("Loading experiment from " ++ dir) :: tr ++
     [EvOpen arguments_path; EvYamlLoad arguments_path])%list in
  (fs_config w arguments_path = Unparseable ->
   run (main w cfg) = (read, Raise YAMLError))
  /\
  (forall v, fs_config w arguments_path = Parsed v ->
     (forall d, v <> VDict d) ->
     run (main w cfg) = (read, Raise TypeError))
  /\
  (forall config, fs_config w arguments_path = Parsed (VDict config) ->
     all_available cfg config = false ->
     run (main w cfg) = (read, Raise AttributeError)).
Proof.
  intros D T R arguments_path read. subst arguments_path read.
  unfold run, trace_of, outcome_of in R.
  pose proof (prepare_resume w cfg dir 0%nat D T) as P. cbv zeta in P.
  destruct (resolve_weights w (checkpoint cfg) (agent cfg) dir 0%nat)
    as [t1 [n1 r1]]. simpl in R. injection R as -> ->.
  destruct (reconcile_errors w cfg dir cp (capture_args cfg) n1) as (U & N & A).
  repeat split.
  - intros H. rewrite (U H) in P. exact (main_of_prepare_raise w cfg _ _ _ P).
  - intros v H Nd. rewrite (N v H Nd) in P.
    exact (main_of_prepare_raise w cfg _ _ _ P).
  - intros config H Av. rewrite (A config H Av) in P.
    exact (main_of_prepare_raise w cfg _ _ _ P).
Qed.

(** X10. An agent descriptor that is supplied but empty (not [None], yet
    false) is read in two ways: line 57 takes it as supplied and loads no
    weights, line 100 takes it as absent and puts the persisted agent in its
    place.  A resume run with such a descriptor builds the persisted agent
    and never calls [load]. *)
Theorem empty_agent_descriptor
  (w : world) (cfg : TonicTrainConfig) (dir : string)
  (t : list event) (r : result unit) :
  checkpoint_output_dir cfg = Some dir ->
  truthy_opt (Some dir) = true ->
  agent cfg <> VNone ->
  truthy (agent cfg) = false ->
  run (main w cfg) = (t, r) ->
  (forall e, In e t -> is_agent_load e = false)
  /\
  (forall tp s, run (prepare w cfg) = (tp, Ok s) ->
     checkpoint_path s = None /\
     exists config,
       fs_config w (path_join dir "config.yaml") = Parsed (VDict config) /\
       lookup "agent" config = Some (agent (effective s)))
  /\
  (forall h d, In (EvInstantiate h d) t -> h = 2%nat ->
     exists config,
       fs_config w (path_join dir "config.yaml") = Parsed (VDict config) /\
       lookup "agent" config = Some d).
Proof.
  intros D T N F H.
  assert (forall tp s, run (prepare w cfg) = (tp, Ok s) ->
            checkpoint_path s = None /\
            exists config,
              fs_config w (path_join dir "config.yaml") = Parsed (VDict config) /\
              lookup "agent" config = Some (agent (effective s))) as Prep.
  { intros tp s P. unfold run, trace_of, outcome_of in P.
    pose proof (prepare_resume w cfg dir 0%nat D T) as Pr. cbv zeta in Pr.
    pose proof (opt_out_resolves w cfg dir (or_intror N)) as O.
    unfold run, trace_of, outcome_of in O.
    destruct (resolve_weights w (checkpoint cfg) (agent cfg) dir 0%nat)
      as [t1 [n1 r1]]. simpl in O. injection O as -> ->.
    destruct (reconcile w cfg dir None (capture_args cfg) n1)
      as [t2 [k2 r2]] eqn:Rc.
    rewrite Pr in P. simpl in P. injection P as _ ->.
    apply reconcile_inv in Rc as (c & L & _ & _ & Cp & _ & _ & A & _).
    split; [exact Cp|]. exists c. split; [exact L|].
    unfold first_non_empty in A. now rewrite F in A. }
  split; [|split; [exact Prep|]].
  - intros e I.
    destruct (main_events w cfg t r e H I)
      as [tp [_ [[_ S]|[_ [s [P Ip]]]]]]; [now destruct e|].
    destruct (Prep tp s P) as [Cp _].
    pose proof (pipeline_no_load w s 0%nat) as L. rewrite Cp in L.
    specialize (L eq_refl). rewrite Forall_forall in L. now apply L.
  - intros h d I ->.
    destruct (main_events w cfg t r _ H I)
      as [tp [_ [[_ S]|[_ [s [P Ip]]]]]]; [discriminate|].
    destruct (Prep tp s P) as [_ (config & L & A)].
    apply pipeline_in in Ip. cbv zeta in Ip. event_cases.
    exists config. auto.
Qed.

(** ** Runs that do not reach the end *)

Lemma prefix_through {A} (x : A) (before after done rest : list A) :
  (done ++ rest = before ++ x :: after)%list ->
  In x done -> ~ In x before ->
  exists done', done = (before ++ x :: done')%list.
Proof.
  revert done. induction before as [|b before IH]; intros done E I N.
  - destruct done as [|d done]; [destruct I|].
    simpl in E. injection E as -> _. now exists done.
  - destruct done as [|d done]; [destruct I|].
    simpl in E. injection E as -> E.
    destruct I as [<-|I]; [destruct N; now left|].
    destruct (IH done E I) as [done' ->].
    + intros X. apply N. now right.
    + now exists done'.
Qed.

(** X11. A run that is cut short has skipped nothing: the steps it made
    are an initial part of the pipeline, all of it when the run returns.
    So training never starts on a half-built session: a run in which
    [trainer.run()] is called has before that loaded the resolved
    checkpoint, if any, initialized the logger and initialized the trainer
    with the agent and both environments. *)
Theorem cut_short_run_skips_nothing
  (w : world) (cfg : TonicTrainConfig) (t tp : list event)
  (r : result unit) (s : session_inputs) :
  run (main w cfg) = (t, r) ->
  run (prepare w cfg) = (tp, Ok s) ->
  (exists done rest,
     t = (tp ++ done)%list /\
     pipeline w s 0%nat = (done ++ rest)%list /\
     (r = Ok tt -> rest = []))
  /\
  (forall trn, In (EvTrainerRun trn) t ->
     In (EvLoggerInitialize (output_dir w) (script_file w) (args s)) t /\
     In (EvTrainerInitialize 3%nat 2%nat 0%nat 1%nat) t /\
     (forall p, checkpoint_path s = Some p -> In (EvAgentLoad 2%nat p) t)).
Proof.
  intros H P.
  destruct (main_inv w cfg t r H) as [[x [P' _]]|[tp' [s' [P' [Et Er]]]]];
    rewrite P in P'; [discriminate|]. injection P' as <- <-.
  destruct (run_session_covers w s 0%nat) as [[rest Pr] O].
  assert (exists done rest,
            t = (tp ++ done)%list /\
            pipeline w s 0%nat = (done ++ rest)%list /\
            (r = Ok tt -> rest = [])) as Pre.
  { exists (trace_of (run_session w s 0%nat)), rest. repeat split; try assumption.
    intros Ok_. rewrite Ok_ in Er. symmetry in Er.
    pose proof (run_session_ok w s 0%nat Er) as Full.
    rewrite Full in Pr. rewrite <- (app_nil_r (pipeline w s 0%nat)) in Pr at 1.
    now apply app_inv_head in Pr. }
  split; [exact Pre|].
  intros trn I. destruct Pre as (done & rest' & -> & Pl & _).
  apply in_app_or in I as [I|I].
  { pose proof (prepare_emits w cfg 0%nat) as Q. unfold run in P.
    injection P as Pt _. rewrite Pt in Q. rewrite Forall_forall in Q.
    now specialize (Q _ I). }
  assert (trn = 3%nat) as ->.
  { assert (In (EvTrainerRun trn) (pipeline w s 0%nat)) as Ip.
    { rewrite Pl. apply in_or_app. now left. }
    apply pipeline_in in Ip. cbv zeta in Ip. event_cases. reflexivity. }
  symmetry in Pl. unfold pipeline in Pl. cbv zeta in Pl.
  rewrite !app_assoc in Pl.
  match type of Pl with
  | (_ ++ _ = (?b ++ [_]) ++ ?a)%list =>
      rewrite <- (app_assoc b) in Pl; simpl in Pl;
      destruct (prefix_through _ b a done rest' Pl I) as [done' ->]
  end.
  - intros X. repeat (apply in_app_or in X as [X|X]);
      try (apply snippet_step_exec in X as [c [_ X]]; discriminate X);
      try (unfold load_step in X; destruct (truthy_opt (checkpoint_path s));
           simpl in X);
      simpl in X; intuition discriminate.
  - repeat split.
    + apply in_or_app. right. apply in_or_app. left.
      apply in_or_app. left. apply in_or_app. right. simpl. auto.
    + apply in_or_app. right. apply in_or_app. left.
      apply in_or_app. left. apply in_or_app. right. simpl. auto.
    + intros p Cp. pose proof (prepare_path_truthy w cfg tp s p P Cp) as Tp.
      apply in_or_app. right. apply in_or_app. left.
      apply in_or_app. left. apply in_or_app. left. apply in_or_app. right.
      unfold load_step. rewrite Cp, Tp. simpl. auto.
Qed.

(** ** Whose error ends a session *)

Section Blame.

Variable w : world.
Variable Q : Prop.
Context {A B : Type}.

Lemma blames_ret (a : A) : blames w Q (ret a).
Proof. intros n t k x H. discriminate. Qed.

Lemma blames_fresh : blames w Q fresh.
Proof. intros n t k x H. discriminate. Qed.

Lemma blames_call e : blames w Q (call w e).
Proof.
  intros n t k x. unfold call. destruct (raises w e) as [y|] eqn:R;
    [|discriminate].
  intros H. injection H as <- _ <-. left. now exists [], e.
Qed.

Lemma blames_bind (m : M A) (f : A -> M B) :
  blames w Q m -> (forall a, blames w Q (f a)) -> blames w Q (bind m f).
Proof.
  intros Hm Hf n t k x. unfold bind.
  destruct (m n) as [t1 [n1 [a|e]]] eqn:E.
  - destruct (f a n1) as [t2 [n2 r2]] eqn:F. intros H. injection H as <- <- ->.
    destruct (Hf a _ _ _ _ F) as [(pre & e & -> & R)|T]; [|now right].
    left. exists (t1 ++ pre)%list, e. split; [apply app_assoc|exact R].
  - intros H. injection H as <- <- <-. exact (Hm _ _ _ _ E).
Qed.

End Blame.

Lemma blames_snippet w (Q : Prop) code :
  (runnable code = false -> Q) ->
  blames w Q (if truthy code then py_exec w code else ret tt).
Proof.
  intros HQ. unfold runnable in HQ. destruct (truthy code); simpl in HQ.
  - destruct code; try apply blames_call;
      intros n t k x H; injection H as _ _ <-; right; auto.
  - apply blames_ret.
Qed.

(** X12. [main] catches nothing and wraps nothing (lines 105-154): when a
    run gets through the preparation and then raises, either the last event
    of its trace is a step whose collaborator raised exactly this error, or
    the error is the [TypeError] of [exec] on a snippet that is neither
    empty nor text. *)
Theorem session_error_is_the_collaborators
  (w : world) (cfg : TonicTrainConfig) (t tp : list event)
  (x : exn) (s : session_inputs) :
  run (main w cfg) = (t, Raise x) ->
  run (prepare w cfg) = (tp, Ok s) ->
  (exists pre e,
     t = (pre ++ [e])%list /\ is_step e = true /\ raises w e = Some x)
  \/
  (x = TypeError /\
   runnable (header (effective s))
   && runnable (before_training (effective s))
   && runnable (after_training (effective s)) = false).
Proof.
  intros H P.
  destruct (main_inv w cfg t (Raise x) H) as [[y [P' _]]|[tp' [s' [P' [Et Er]]]]];
    rewrite P in P'; [discriminate|]. injection P' as <- <-.
  set (Q := runnable (header (effective s))
            && runnable (before_training (effective s))
            && runnable (after_training (effective s)) = false).
  assert (blames w Q (run_session w s)) as Bl.
  { unfold run_session, distribute, instantiate.
    repeat first
      [ apply blames_bind; [|intros ?]
      | apply blames_snippet; subst Q; intros ->;
        rewrite ?andb_false_r; reflexivity
      | apply blames_call
      | apply blames_fresh
      | apply blames_ret
      | match goal with
        | |- blames _ _ (if truthy_opt ?o then _ else _) =>
            destruct (truthy_opt o)
        end ]. }
  destruct (run_session w s 0%nat) as [ts [k rs]] eqn:E.
  unfold outcome_of, trace_of in *. simpl in *. subst rs t.
  destruct (Bl _ _ _ _ E) as [(pre & e & -> & R)|T]; [left|now right].
  exists (tp ++ pre)%list, e. split; [apply app_assoc|]. split; [|exact R].
  pose proof (run_session_emits w s 0%nat) as St. rewrite E in St.
  unfold trace_of in St. simpl in St. rewrite Forall_forall in St.
  apply St. apply in_or_app. right. now left.
Qed.

(** ** A run out of the box *)

(** X13. With the defaults of [TonicTrainConfig] (lines 15-26) and only the
    three descriptors given, a run is a fresh one: nothing is logged or read
    during the preparation, no snippet runs and no weights are loaded; the
    training environment is distributed over one worker with one instance
    and seeded with 0, the test environment is built from the same
    descriptor and seeded with 10000.  When no collaborator raises this is
    the whole run. *)
Theorem run_out_of_the_box
  (w : world) (agent_d environment_d trainer_d : value) :
  (forall e, raises w e = None) ->
  let cfg := with_descriptors agent_d environment_d trainer_d in
  run (main w cfg)
  = ([ EvDistribute 0%nat environment_d (Some (1, 1));
       EvEnvInitialize 0%nat 0;
       EvDistribute 1%nat environment_d None;
       EvEnvInitialize 1%nat 10000;
       EvInstantiate 2%nat agent_d;
       EvAgentInitialize 2%nat (ObservationSpace 0%nat) (ActionSpace 0%nat) 0;
       EvLoggerInitialize (output_dir w) (script_file w) (capture_args cfg);
       EvInstantiate 3%nat trainer_d;
       EvTrainerInitialize 3%nat 2%nat 0%nat 1%nat;
       EvTrainerRun 3%nat ],
     Ok tt).
Proof.
  intros N cfg.
  assert (truthy_opt (checkpoint_output_dir cfg) = false) as T by reflexivity.
  pose proof (prepare_fresh w cfg 0%nat T) as P.
  set (s := {| effective := cfg; checkpoint_path := None;
               args := capture_args cfg |}) in *.
  destruct (run_session_returns w s N eq_refl eq_refl eq_refl 0%nat)
    as (ts & k & [] & E).
  pose proof (run_session_ok w s 0%nat) as Full.
  rewrite E in Full. unfold outcome_of, trace_of in Full. simpl in Full.
  specialize (Full eq_refl). subst ts.
  unfold run, main. rewrite (bind_ok _ _ _ _ _ _ P), E. reflexivity.
Qed.

(** ** A missing checkpoints directory *)

Lemma choose_checkpoint_int n cp i ids k :
  choose_checkpoint (VInt n) cp (i :: ids) k =
  if mem n (i :: ids) then step_path cp n k
  else ([EvLogError ("Checkpoint " ++ str_int n ++ " not found in " ++ str_opt cp)],
        (k, Ok None)).
Proof.
  unfold choose_checkpoint. cbn [eq_str int]. unfold bind at 1. unfold lift.
  destruct (mem n (i :: ids)); [now destruct (step_path cp n k)|reflexivity].
Qed.

(** X14. What the resolver does when [<checkpoint_output_dir>/checkpoints]
    is no directory (lines 60-91): it logs the error, and then lists the
    working directory, since [checkpoint_path] is [None] by then.  Without
    a [step_] entry there it logs "No checkpoint found in None" and resolves
    no checkpoint.  With one, the selectors ['last'] and ['first'], and an
    integer that is the id of such an entry, raise [TypeError] on joining
    the path [None]; an integer that is no such id logs "not found in None"
    and resolves no checkpoint.  A [step_] entry there that is not numbered
    raises as it would in the checkpoints directory. *)
Theorem missing_directory_lists_working_directory
  (w : world) (selector : value) (dir : string) :
  eq_str selector "none" = false ->
  fs_dirs w (path_join dir "checkpoints") = None ->
  let reported :=
    [EvIsDir (path_join dir "checkpoints");
     EvLogError (path_join dir "checkpoints" ++ " is not a directory");
     EvListDir None] in
  let resolved := run (resolve_weights w selector VNone dir) in
  (scan (fs_cwd w) [] = Ok [] ->
   resolved = ((reported ++ [EvLogError "No checkpoint found in None"])%list,
               Ok None))
  /\
  (forall i ids, scan (fs_cwd w) [] = Ok (i :: ids) ->
     (eq_str selector "last" = true \/ eq_str selector "first" = true ->
      resolved = (reported, Raise TypeError))
     /\
     (forall n, selector = VInt n ->
        (In n (i :: ids) -> resolved = (reported, Raise TypeError)) /\
        (~ In n (i :: ids) ->
         resolved =
           ((reported ++
             [EvLogError ("Checkpoint " ++ str_int n ++ " not found in None")])%list,
            Ok None))))
  /\
  (forall e, scan (fs_cwd w) [] = Raise e -> resolved = (reported, Raise e)).
Proof.
  intros N D reported resolved. subst reported resolved.
  assert (run (resolve_weights w selector VNone dir)
          = run (select_checkpoint w selector dir)) as ->.
  { unfold run, resolve_weights. now rewrite N. }
  split; [|split].
  - now apply missing_directory_without_entries.
  - intros i ids S. split.
    + now apply (missing_directory_with_entries w selector dir i ids).
    + intros n ->. unfold run.
      rewrite (select_checkpoint_missing w _ _ _ D). cbv zeta. rewrite S.
      rewrite choose_checkpoint_int. split.
      * intros I. apply mem_In in I. now rewrite I.
      * intros I. destruct (mem n (i :: ids)) eqn:Mn.
        -- apply mem_In in Mn. contradiction.
        -- reflexivity.
  - intros e S. unfold run.
    rewrite (select_checkpoint_missing w _ _ _ D). cbv zeta. now rewrite S.
Qed.

(** ** Captured arguments as a persisted configuration *)

(** The captured arguments hold every field under its name. *)
Lemma capture_args_lookup cfg :
  lookup "header" (capture_args cfg) = Some (header cfg) /\
  lookup "agent" (capture_args cfg) = Some (agent cfg) /\
  lookup "environment" (capture_args cfg) = Some (environment cfg) /\
  lookup "test_environment" (capture_args cfg) = Some (test_environment cfg) /\
  lookup "trainer" (capture_args cfg) = Some (trainer cfg).
Proof. repeat split. Qed.

(** X15. What line 47 captures can be merged back by lines 96-103: when the
    [config.yaml] of a resume run holds the arguments captured from the
    specification [cfg0] and the resolver returns, the preparation returns,
    and each of the five mergeable fields is the current value when that is
    true and the value [cfg0] had otherwise, whatever that value is (also
    an empty one, as after a run that had itself resumed). *)
Theorem captured_arguments_restore
  (w : world) (cfg cfg0 : TonicTrainConfig) (dir : string)
  (tr : list event) (cp : option string) :
  checkpoint_output_dir cfg = Some dir ->
  truthy_opt (Some dir) = true ->
  run (resolve_weights w (checkpoint cfg) (agent cfg) dir) = (tr, Ok cp) ->
  fs_config w (path_join dir "config.yaml") = Parsed (VDict (capture_args cfg0)) ->
  exists t s,
    run (prepare w cfg) = (t, Ok s) /\
    checkpoint_path s = cp /\
    header (effective s)
    = (if truthy (header cfg) then header cfg else header cfg0) /\
    agent (effective s)
    = (if truthy (agent cfg) then agent cfg else agent cfg0) /\
    environment (effective s)
    = (if truthy (environment cfg) then environment cfg else environment cfg0) /\
    test_environment (effective s)
    = (if truthy (test_environment cfg) then test_environment cfg
       else test_environment cfg0) /\
    trainer (effective s)
    = (if truthy (trainer cfg) then trainer cfg else trainer cfg0).
Proof.
  intros D T R L. unfold run, trace_of, outcome_of in *.
  pose proof (prepare_resume w cfg dir 0%nat D T) as P. cbv zeta in P.
  destruct (resolve_weights w (checkpoint cfg) (agent cfg) dir 0%nat)
    as [t1 [n1 r1]]. simpl in R. injection R as -> ->.
  assert (forall c, available c (Some c) = true) as Av
    by (intros c; apply orb_true_r).
  destruct (reconcile_returns w cfg dir cp (capture_args cfg) n1 _ L
              (orb_true_r _) (orb_true_r _) (orb_true_r _)
              (orb_true_r _) (orb_true_r _)) as [s E].
  rewrite E in P. rewrite P. simpl.
  exists (EvLog ("Loading experiment from " ++ dir)
          :: tr ++ [EvOpen (path_join dir "config.yaml");
                    EvYamlLoad (path_join dir "config.yaml")])%list, s.
  apply reconcile_inv in E
    as (c & L' & _ & _ & Cp & _ & F1 & F2 & F3 & F4 & F5 & _).
  rewrite L in L'. injection L' as <-.
  destruct (capture_args_lookup cfg0) as (K1 & K2 & K3 & K4 & K5).
  rewrite K1 in F1. rewrite K2 in F2. rewrite K3 in F3. rewrite K4 in F4.
  rewrite K5 in F5. unfold first_non_empty in *.
  repeat split; try assumption;
    match goal with
    | |- _ = (if truthy ?v then _ else _) =>
        destruct (truthy v); [assumption|]
    end; congruence.
Qed.

(** ** The further properties on the worked runs *)

Lemma directory_without_steps_witness :
  (fs_dirs workshop (path_join "bare" "checkpoints")
   = Some ["notes.txt"; "Step_1"; "steps"] /\
   Forall (fun f => is_checkpoint_entry f = false) ["notes.txt"; "Step_1"; "steps"])
  /\
  run (resolve_weights workshop (VStr "latest") VNone "bare")
  = ([EvIsDir "bare/checkpoints";
      EvListDir (Some "bare/checkpoints");
      EvLogError "No checkpoint found in bare/checkpoints"],
     Ok None).
Proof.
  assert (Forall (fun f => is_checkpoint_entry f = false)
                 ["notes.txt"; "Step_1"; "steps"]) as F
    by (repeat constructor).
  split; [split; [reflexivity|exact F]|].
  exact (directory_without_steps workshop (VStr "latest") "bare" _
           eq_refl eq_refl F).
Defined.

Lemma text_selector_is_its_number_witness :
  int_of_str "7" = Some 7 /\
  run (resolve_weights machine (VStr "7") VNone "run")
  = run (resolve_weights machine (VInt 7) VNone "run").
Proof.
  split; [reflexivity|].
  exact (text_selector_is_its_number machine "7" 7 VNone "run"
           eq_refl eq_refl eq_refl eq_refl).
Defined.


Lemma listing_order_is_irrelevant_witness :
  Permutation.Permutation
    ["step_3"; "step_12.pt"; "notes.txt"; "step_7"]
    ["step_12.pt"; "step_3"; "notes.txt"; "step_7"]
  /\
  run (resolve_weights machine (VStr "first") VNone "run")
  = run (resolve_weights workshop (VStr "first") VNone "run").
Proof.
  assert (Permutation.Permutation
            ["step_3"; "step_12.pt"; "notes.txt"; "step_7"]
            ["step_12.pt"; "step_3"; "notes.txt"; "step_7"]) as P
    by apply Permutation.perm_swap.
  split; [exact P|].
  exact (listing_order_is_irrelevant machine workshop (VStr "first") VNone "run"
           _ _ eq_refl eq_refl P).
Defined.

Lemma resolved_checkpoint_was_scanned_witness :
  snd (run (prepare machine (resuming (VStr "last") "run")))
  = Ok {| effective := effective_of_resumed;
          checkpoint_path := Some "run/checkpoints/step_12";
          args := capture_args (resuming (VStr "last") "run") |}
  /\
  exists dir files ids id,
    checkpoint_output_dir (resuming (VStr "last") "run") = Some dir /\
    fs_dirs machine (path_join dir "checkpoints") = Some files /\
    scan files [] = Ok ids /\
    In id ids /\
    "run/checkpoints/step_12"
    = path_join (path_join dir "checkpoints") ("step_" ++ str_int id).
Proof.
  split; [reflexivity|].
  exact (resolved_checkpoint_was_scanned machine (resuming (VStr "last") "run")
           _ _ "run/checkpoints/step_12" eq_refl eq_refl).
Defined.

Lemma resolved_checkpoint_is_loaded_witness :
  snd (run (main machine (resuming (VStr "last") "run"))) = Ok tt
  /\
  filter is_agent_load (fst (run (main machine (resuming (VStr "last") "run"))))
  = [EvAgentLoad 2%nat "run/checkpoints/step_12"].
Proof.
  split; [reflexivity|].
  exact (resolved_checkpoint_is_loaded machine (resuming (VStr "last") "run")
           _ _ _ eq_refl eq_refl).
Defined.

Lemma resolver_error_ends_the_run_witness :
  run (resolve_weights machine (VStr "last") VNone "old")
  = ([EvIsDir "old/checkpoints"; EvListDir (Some "old/checkpoints")],
     Raise ValueError)
  /\
  run (main machine (resuming (VStr "last") "old"))
  = ([EvLog "Loading experiment from old";
      EvIsDir "old/checkpoints"; EvListDir (Some "old/checkpoints")],
     Raise ValueError).
Proof.
  split; [reflexivity|].
  exact (proj1 (resolver_error_ends_the_run machine
                  (resuming (VStr "last") "old") "old" _ ValueError
                  eq_refl eq_refl eq_refl)).
Defined.

Lemma configuration_errors_are_fatal_witness :
  (fs_config workshop (path_join "bare" "config.yaml") = Unparseable /\
   run (resolve_weights workshop (VStr "none") VNone "bare")
   = ([EvLog "Not loading any weights"], Ok None))
  /\
  run (main workshop (resuming (VStr "none") "bare"))
  = ([EvLog "Loading experiment from bare";
      EvLog "Not loading any weights";
      EvOpen "bare/config.yaml";
      EvYamlLoad "bare/config.yaml"],
     Raise YAMLError).
Proof.
  split; [split; reflexivity|].
  exact (proj1 (configuration_errors_are_fatal workshop
                  (resuming (VStr "none") "bare") "bare" _ None
                  eq_refl eq_refl eq_refl) eq_refl).
Defined.

Lemma empty_agent_descriptor_witness :
  (agent resuming_with_empty_agent <> VNone /\
   truthy (agent resuming_with_empty_agent) = false /\
   snd (run (main machine resuming_with_empty_agent)) = Ok tt)
  /\
  exists config,
    fs_config machine (path_join "run" "config.yaml") = Parsed (VDict config) /\
    lookup "agent" config
    = Some (VDict [("_target_", VStr "tonic.torch.agents.PPO")]).
Proof.
  split; [repeat split; discriminate|].
  refine (proj2 (proj2 (empty_agent_descriptor machine resuming_with_empty_agent
                          "run" _ (Ok tt) eq_refl eq_refl _ eq_refl eq_refl))
            2%nat _ _ eq_refl).
  - discriminate.
  - vm_compute. repeat (first [left; reflexivity | right]).
Defined.

Lemma cut_short_run_skips_nothing_witness :
  run (main workshop (resuming (VStr "last") "run"))
  = (fst (run (main workshop (resuming (VStr "last") "run"))),
     Raise (CollaboratorError "agent.load"))
  /\
  forall trn,
    ~ In (EvTrainerRun trn)
         (fst (run (main workshop (resuming (VStr "last") "run")))).
Proof.
  split; [reflexivity|].
  intros trn I.
  destruct (proj2 (cut_short_run_skips_nothing workshop
                     (resuming (VStr "last") "run") _ _ _ _ eq_refl eq_refl)
              trn I) as (L & _).
  vm_compute in L.
  repeat match goal with
         | H : _ \/ _ |- _ => destruct H
         | H : @eq event _ _ |- _ => discriminate H
         | H : False |- _ => destruct H
         end.
Defined.

Lemma session_error_is_the_collaborators_witness :
  run (main workshop (resuming (VStr "last") "run"))
  = (fst (run (main workshop (resuming (VStr "last") "run"))),
     Raise (CollaboratorError "agent.load"))
  /\
  ((exists pre e,
      fst (run (main workshop (resuming (VStr "last") "run"))) = (pre ++ [e])%list /\
      is_step e = true /\
      raises workshop e = Some (CollaboratorError "agent.load"))
   \/
   (CollaboratorError "agent.load" = TypeError /\
    runnable (header effective_of_resumed)
    && runnable (before_training effective_of_resumed)
    && runnable (after_training effective_of_resumed) = false)).
Proof.
  split; [reflexivity|].
  exact (session_error_is_the_collaborators workshop
           (resuming (VStr "last") "run") _ _ _
           {| effective := effective_of_resumed;
              checkpoint_path := Some "run/checkpoints/step_12";
              args := capture_args (resuming (VStr "last") "run") |}
           eq_refl eq_refl).
Defined.

Lemma run_out_of_the_box_witness :
  (forall e, raises machine e = None)
  /\
  snd (run (main machine
              (with_descriptors (VStr "agent") (VStr "environment") (VStr "trainer"))))
  = Ok tt.
Proof.
  split; [reflexivity|].
  now rewrite (run_out_of_the_box machine (VStr "agent") (VStr "environment")
                 (VStr "trainer") (fun _ => eq_refl)).
Defined.

Lemma missing_directory_lists_working_directory_witness :
  (fs_dirs workshop (path_join "lost" "checkpoints") = None /\
   scan (fs_cwd workshop) [] = Ok [])
  /\
  run (resolve_weights workshop (VStr "last") VNone "lost")
  = ([EvIsDir "lost/checkpoints";
      EvLogError "lost/checkpoints is not a directory";
      EvListDir None;
      EvLogError "No checkpoint found in None"],
     Ok None).
Proof.
  split; [split; reflexivity|].
  exact (proj1 (missing_directory_lists_working_directory workshop
                  (VStr "last") "lost" eq_refl eq_refl) eq_refl).
Defined.

(** A run that resumes from [second], which had itself resumed from [run]
    without an agent of its own: the agent it gets is [None]. *)
Lemma captured_arguments_restore_witness :
  fs_config workshop (path_join "second" "config.yaml")
  = Parsed (VDict (capture_args (resuming (VStr "last") "run")))
  /\
  exists t s,
    run (prepare workshop (resuming (VStr "none") "second")) = (t, Ok s) /\
    agent (effective s) = VNone.
Proof.
  split; [reflexivity|].
  destruct (captured_arguments_restore workshop
              (resuming (VStr "none") "second") (resuming (VStr "last") "run")
              "second" _ None eq_refl eq_refl eq_refl eq_refl)
    as (t & s & P & _ & _ & A & _).
  exists t, s. split; [exact P|exact A].
Defined.
